(** * AI-Powered Code Mentor: the backend's provider fallback layer

    A shallow embedding of the TypeScript backend:
    - [Js]: the JavaScript primitives the backend relies on (strings,
      truthiness, [Error] objects, awaited promises, JSON values);
    - [Validation], [ResponseUtils]: utils/validation.ts and
      utils/responseUtils.ts;
    - [Provider]: interfaces/AIProvider.ts;
    - [GeminiService], [GroqService], [HuggingFaceService]: the adapters;
    - [AIService]: services/aiService.ts, the fallback orchestrator;
    - [Controller]: controllers/analysisController.ts.

    Asynchronous code is sequential in this backend (every promise is
    awaited before the next statement runs), so an awaited promise is a
    state transformer over the state [W] of the outside world (remote
    services, network, clock) that either returns a value or throws. *)

From Stdlib Require Import ZArith List String Ascii Bool Lia Permutation Sorted.
Import ListNotations.
Local Open Scope string_scope.
Local Open Scope list_scope.
Local Open Scope Z_scope.

(* ===================================================================== *)
(** ** JavaScript primitives *)
(* ===================================================================== *)

Module Js.

(** Strings are sequences of ASCII characters; the provider names, the
    provider hints and the error markers of the source are all ASCII. *)
Infix "^^" := String.append (at level 60, right associativity).

(** [new Error(message)].  Every value thrown in the backend is an [Error]
    object: the adapters throw [new Error(...)], the vendor SDKs and
    [fetch] reject with [Error] instances. *)
Record Error : Type := mkError { message : string }.

(** The result of awaiting a promise or running a [try] block. *)
Inductive outcome (A : Type) : Type :=
| Returns (a : A)
| Throws (e : Error).
Arguments Returns {A} a.
Arguments Throws {A} e.

(** An awaited promise over the world state [W]. *)
Definition Async (W A : Type) : Type := W -> outcome A * W.

Definition isUpperCase (c : ascii) : bool :=
  ((65 <=? nat_of_ascii c) && (nat_of_ascii c <=? 90))%nat.

Definition lowerChar (c : ascii) : ascii :=
  if isUpperCase c then ascii_of_nat (nat_of_ascii c + 32) else c.

(** [s.toLowerCase()] *)
Fixpoint toLowerCase (s : string) : string :=
  match s with
  | EmptyString => EmptyString
  | String c r => String (lowerChar c) (toLowerCase r)
  end.

(** [hay.includes(needle)] *)
Fixpoint includes (hay needle : string) : bool :=
  String.prefix needle hay ||
  match hay with
  | EmptyString => false
  | String _ r => includes r needle
  end.

(** White space and line terminators stripped by [trim]. *)
Definition isWhiteSpace (c : ascii) : bool :=
  let n := nat_of_ascii c in
  ((n =? 9) || (n =? 10) || (n =? 11) || (n =? 12) || (n =? 13) || (n =? 32))%nat.

Fixpoint trimStart (s : string) : string :=
  match s with
  | EmptyString => EmptyString
  | String c r => if isWhiteSpace c then trimStart r else s
  end.

Fixpoint trimEnd (s : string) : string :=
  match s with
  | EmptyString => EmptyString
  | String c r =>
      match trimEnd r with
      | EmptyString => if isWhiteSpace c then EmptyString else String c EmptyString
      | r' => String c r'
      end
  end.

(** [s.trim()] *)
Definition trim (s : string) : string := trimEnd (trimStart s).

(** [s.length] *)
Definition strLength (s : string) : Z := Z.of_nat (String.length s).

(** Truthiness of a string: only the empty string is falsy. *)
Definition truthyString (s : string) : bool := negb (s =? "")%string.

(** Values of type [any] as they arrive in a parsed JSON body (numbers
    restricted to integers). *)
#[warnings="-register-all"]
Inductive JsValue : Type :=
| JUndefined
| JNull
| JBool (b : bool)
| JNumber (n : Z)
| JString (s : string)
| JArray (items : list JsValue)
| JObject (fields : list (string * JsValue)).

(** [!!v] *)
Definition truthy (v : JsValue) : bool :=
  match v with
  | JUndefined | JNull => false
  | JBool b => b
  | JNumber n => negb (n =? 0)
  | JString s => truthyString s
  | JArray _ | JObject _ => true
  end.

(** [obj[key]]: the first binding wins in our objects, a missing property
    reads as [undefined]. *)
Fixpoint getField (fields : list (string * JsValue)) (key : string) : JsValue :=
  match fields with
  | [] => JUndefined
  | (k, v) :: rest => if (k =? key)%string then v else getField rest key
  end.

Definition prop (v : JsValue) (key : string) : JsValue :=
  match v with
  | JObject fields => getField fields key
  | _ => JUndefined
  end.

(** [arr.findIndex(pred)]: index of the first match, [-1] when none. *)
Fixpoint findIndex {A : Type} (pred : A -> bool) (arr : list A) : Z :=
  match arr with
  | [] => -1
  | x :: rest =>
      if pred x then 0
      else let i := findIndex pred rest in
           if i <? 0 then -1 else i + 1
  end.

(** [arr.splice(start, deleteCount)]: the removed elements and the array
    as it is left behind. *)
Definition splice {A : Type} (arr : list A) (start deleteCount : nat)
  : list A * list A :=
  (firstn deleteCount (skipn start arr),
   firstn start arr ++ skipn (start + deleteCount) arr).

Section Sort.
Context {A : Type}.
Variable key : A -> Z.

(** [arr.sort((a, b) => key(a) - key(b))].  The sort of the language is
      stable, so its result is the one of a stable insertion sort: an
      element is put before the first element that does not compare
      smaller. *)
Fixpoint insertSorted (x : A) (sorted : list A) : list A :=
    match sorted with
    | [] => [x]
    | y :: rest =>
        if key x - key y <=? 0 then x :: sorted
        else y :: insertSorted x rest
    end.

Fixpoint sortBy (arr : list A) : list A :=
    match arr with
    | [] => []
    | x :: rest => insertSorted x (sortBy rest)
    end.
(** The order in which such a sort leaves two neighbours. *)
Definition ascending (a b : A) : Prop := key a <= key b.

End Sort.

End Js.
Import Js.

(* ===================================================================== *)
(** ** interfaces/AIProvider.ts *)
(* ===================================================================== *)

Module Provider.
Section Interface.
Variable W : Type.

(** [interface AIProvider]; [generateReport] is the optional method. *)
Record AIProvider : Type := {
  isAvailable : unit -> bool;
  analyzeCode : string -> string -> string -> Async W string;
  explainCode : string -> string -> Async W string;
  suggestImprovements : string -> string -> JsValue -> Async W string;
  generateReport : option (list JsValue -> JsValue -> Async W string)
}.

(** [interface ProviderConfiguration]; [checkAvailable] is optional. *)
Record ProviderConfiguration : Type := {
  name : string;
  service : AIProvider;
  priority : Z;
  checkAvailable : option (unit -> bool)
}.

End Interface.

Arguments isAvailable {W} _ _.
Arguments analyzeCode {W} _ _ _ _ _.
Arguments explainCode {W} _ _ _ _.
Arguments suggestImprovements {W} _ _ _ _ _.
Arguments generateReport {W} _.
Arguments name {W} _.
Arguments service {W} _.
Arguments priority {W} _.
Arguments checkAvailable {W} _.
End Provider.
Import Provider.

(* ===================================================================== *)
(** ** config/config.ts *)
(* ===================================================================== *)

Module Config.

(** The variables of [process.env] read by the backend's provider layer;
    an unset variable is [None]. *)
Record Env : Type := {
  GEMINI_API_KEY : option string;
  GROQ_API_KEY : option string;
  HUGGINGFACE_API_KEY : option string
}.

(** Truthiness of a [string | undefined]. *)
Definition truthyOpt (v : option string) : bool :=
  match v with
  | Some s => truthyString s
  | None => false
  end.

(** [v || ''] *)
Definition orEmpty (v : option string) : string :=
  match v with
  | Some s => if truthyString s then s else ""
  | None => ""
  end.

(** The [gemini] entry of [config]; the port, the environment name and the
    CORS origin play no part in the provider layer. *)
Record Config : Type := { gemini_apiKey : string }.

Definition config (env : Env) : Config :=
  {| gemini_apiKey := orEmpty (GEMINI_API_KEY env) |}.

End Config.
Import Config.

(* ===================================================================== *)
(** ** services/geminiService.ts *)
(* ===================================================================== *)

Module GeminiService.

(** The three ways [retryWithBackoff] completes: the [return] of line 71,
    the [throw error] of line 78, the [throw] of line 87 after the loop. *)
Inductive Completion (T : Type) : Type :=
| Returned (value : T)
| Rethrown (error : Error)
| MaxRetriesExceeded.
Arguments Returned {T} value.
Arguments Rethrown {T} error.
Arguments MaxRetriesExceeded {T}.

(** What the caller of [retryWithBackoff] observes. *)
Definition observe {T : Type} (c : Completion T) : outcome T :=
  match c with
  | Returned value => Returns value
  | Rethrown error => Throws error
  | MaxRetriesExceeded => Throws (mkError "Max retries exceeded")
  end.

(** One entry per call of the operation and per back-off sleep. *)
Inductive RetryEvent (T : Type) : Type :=
| Called (attempt : Z) (result : outcome T)
| Slept (delay : Z).
Arguments Called {T} attempt result.
Arguments Slept {T} delay.

(** The values taken by [attempt] in
    [for (let attempt = 1; attempt <= maxRetries; attempt++)]; the body
    does not assign [attempt]. *)
Definition attemptsUpTo (maxRetries : Z) : list Z :=
  map Z.of_nat (seq 1 (Z.to_nat maxRetries)).

Section Retry.
Variable W : Type.

(** [new Promise(resolve => setTimeout(resolve, delay))], awaited. *)
Variable sleep : Z -> W -> W.

Context {T : Type}.
Variable operation : Async W T.
Variable maxRetries : Z.
Variable baseDelay : Z.

Definition isRateLimitError (error : Error) : bool :=
  includes (message error) "429" || includes (message error) "quota".

(** The loop of [retryWithBackoff] over the remaining values of [attempt],
    followed by the trailing [throw]. *)
Fixpoint retryLoop (attempts : list Z) (w : W)
  : Completion T * W * list (RetryEvent T) :=
  match attempts with
  | [] => (MaxRetriesExceeded, w, [])
  | attempt :: rest =>
      match operation w with
      | (Returns value, w1) =>
          (Returned value, w1, [Called attempt (Returns value)])
      | (Throws error, w1) =>
          let isLastAttempt := attempt =? maxRetries in
          if isLastAttempt || negb (isRateLimitError error) then
            (Rethrown error, w1, [Called attempt (Throws error)])
          else
            let delay := baseDelay * 2 ^ (attempt - 1) in
            let '(c, w2, log) := retryLoop rest (sleep delay w1) in
            (c, w2, Called attempt (Throws error) :: Slept delay :: log)
      end
  end.

(** [retryWithBackoff(operation, maxRetries, baseDelay)] *)
Definition retryWithBackoff (w : W)
  : Completion T * W * list (RetryEvent T) :=
  retryLoop (attemptsUpTo maxRetries) w.

End Retry.

Arguments retryLoop {W} sleep {T} operation maxRetries baseDelay attempts w.
Arguments retryWithBackoff {W} sleep {T} operation maxRetries baseDelay w.

(** The calls of the operation, and the sleeps, of a run. *)
Fixpoint calls {T : Type} (log : list (RetryEvent T)) : list (Z * outcome T) :=
  match log with
  | [] => []
  | Called attempt result :: rest => (attempt, result) :: calls rest
  | Slept _ :: rest => calls rest
  end.

Fixpoint delays {T : Type} (log : list (RetryEvent T)) : list Z :=
  match log with
  | [] => []
  | Called _ _ :: rest => delays rest
  | Slept delay :: rest => delay :: delays rest
  end.

(** What a completion owes to the calls of the log: a returned value was
    returned by a call of the operation, a rethrown error was thrown by
    one, and the trailing [throw] owes nothing to the operation. *)
Definition originates {W T : Type} (operation : Async W T)
           (c : Completion T) (log : list (RetryEvent T)) : Prop :=
  match c with
  | Returned value =>
      exists k w0 w1, operation w0 = (Returns value, w1) /\
                      In (k, Returns value) (calls log)
  | Rethrown error =>
      exists k w0 w1, operation w0 = (Throws error, w1) /\
                      In (k, Throws error) (calls log)
  | MaxRetriesExceeded => False
  end.

(** A call that threw a rate-limit error, as every call that is followed
    by another one did. *)
Definition retried {T : Type} (call : Z * outcome T) : Prop :=
  exists error, snd call = Throws error /\ isRateLimitError error = true.


(** The sleep that immediately precedes the call numbered [k], if any. *)
Fixpoint delayBefore {T : Type} (k : Z) (log : list (RetryEvent T)) : option Z :=
  match log with
  | Slept delay :: ((Called attempt _ :: _) as rest) =>
      if attempt =? k then Some delay else delayBefore k rest
  | _ :: rest => delayBefore k rest
  | [] => None
  end.

Section Adapter.
Variable W : Type.
Variable sleep : Z -> W -> W.

(** The vendor SDK: [this.model.generateContent(prompt)] and, on its
    result, [(await result.response).text()]. *)
Variable GenerateContentResult : Type.
Variable generateContent : string -> Async W GenerateContentResult.
Variable responseText : GenerateContentResult -> Async W string.

(** The prompt templates are data of the adapter. *)
Variable buildAnalysisPrompt : string -> string -> string -> string.
Variable reportPrompt : list JsValue -> JsValue -> string.
Variable explainPrompt : string -> string -> string.
Variable improvePrompt : string -> string -> JsValue -> string.

(** [analyzeCode(code, language, analysisType)]: the [try] body, then the
    [catch] block. *)
Definition analyzeCode (code language analysisType : string) : Async W string :=
  fun w =>
    let prompt := buildAnalysisPrompt code language analysisType in
    let '(attempted, w2) :=
      let '(c, w1, _) := retryWithBackoff sleep (generateContent prompt) 3 1000 w in
      match observe c with
      | Returns result => responseText result w1
      | Throws error => (Throws error, w1)
      end in
    match attempted with
    | Returns text => (Returns text, w2)
    | Throws error =>
        if includes (message error) "429" then
          (Throws (mkError "API quota exceeded. Please wait a moment and try again, or check your Gemini API billing."), w2)
        else
          (Throws (mkError ("Code analysis failed: " ^^ message error)), w2)
    end.

(** The shape shared by [generateReport], [explainCode] and
    [suggestImprovements]: one call of the model, failures rewrapped. *)
Definition askModel (prompt failurePrefix : string) : Async W string :=
  fun w =>
    let '(attempted, w2) :=
      match generateContent prompt w with
      | (Returns result, w1) => responseText result w1
      | (Throws error, w1) => (Throws error, w1)
      end in
    match attempted with
    | Returns text => (Returns text, w2)
    | Throws error => (Throws (mkError (failurePrefix ^^ message error)), w2)
    end.

(** [generateReport(analysisResults, projectInfo = {})] *)
Definition generateReport (analysisResults : list JsValue) (projectInfo : JsValue)
  : Async W string :=
  let projectInfo :=
    match projectInfo with
    | JUndefined => JObject []
    | _ => projectInfo
    end in
  askModel (reportPrompt analysisResults projectInfo) "Report generation failed: ".

Definition explainCode (code language : string) : Async W string :=
  askModel (explainPrompt code language) "Code explanation failed: ".

Definition suggestImprovements (code language : string) (context : JsValue)
  : Async W string :=
  askModel (improvePrompt code language context)
           "Code improvement suggestions failed: ".

(** [isAvailable()] reads the module-level [config]. *)
Definition isAvailable (config : Config) (_ : unit) : bool :=
  truthyString (gemini_apiKey config).

(** [new GeminiService()]: the constructor throws when the key is falsy. *)
Definition construct (config : Config) : outcome (AIProvider W) :=
  if negb (truthyString (gemini_apiKey config)) then
    Throws (mkError "Gemini API key is required")
  else
    Returns {| Provider.isAvailable := isAvailable config;
               Provider.analyzeCode := analyzeCode;
               Provider.explainCode := explainCode;
               Provider.suggestImprovements := suggestImprovements;
               Provider.generateReport := Some generateReport |}.

End Adapter.
End GeminiService.

(* ===================================================================== *)
(** ** services/groqService.ts *)
(* ===================================================================== *)

Module GroqService.
Section Adapter.
Variable W : Type.

(** [this.client.chat.completions.create({...})] for a prompt and a
    temperature (in tenths), read at [choices[0]?.message?.content]. *)
Variable chatCompletionsCreate : string -> Z -> Async W (option string).

Variable buildAnalysisPrompt : string -> string -> string -> string.
Variable explainPrompt : string -> string -> string.
Variable improvePrompt : string -> string -> JsValue -> string.

(** [this.config.apiKey], set from [process.env.GROQ_API_KEY]. *)
Variable apiKey : option string.

(** [content || fallback] *)
Definition contentOr (content : option string) (fallback : string) : string :=
  match content with
  | Some text => if truthyString text then text else fallback
  | None => fallback
  end.

(** The shape shared by the three methods: the guard on [this.client]
    (which is [null] exactly when the key is falsy), then one call. *)
Definition complete (prompt : string) (temperature : Z)
           (fallback failurePrefix : string) : Async W string :=
  fun w =>
    if negb (truthyOpt apiKey) then
      (Throws (mkError "Groq client not initialized - missing API key"), w)
    else
      match chatCompletionsCreate prompt temperature w with
      | (Returns content, w1) => (Returns (contentOr content fallback), w1)
      | (Throws error, w1) =>
          (Throws (mkError (failurePrefix ^^ message error)), w1)
      end.

Definition analyzeCode (code language analysisType : string) : Async W string :=
  complete (buildAnalysisPrompt code language analysisType) 3
           "No analysis generated" "Groq analysis failed: ".

Definition explainCode (code language : string) : Async W string :=
  complete (explainPrompt code language) 3
           "No explanation generated" "Groq explanation failed: ".

Definition suggestImprovements (code language : string) (context : JsValue)
  : Async W string :=
  complete (improvePrompt code language context) 4
           "No suggestions generated" "Groq improvement suggestions failed: ".

Definition isAvailable (_ : unit) : bool := truthyOpt apiKey.

(** [new GroqService()]; the class has no [generateReport]. *)
Definition construct : AIProvider W :=
  {| Provider.isAvailable := isAvailable;
     Provider.analyzeCode := analyzeCode;
     Provider.explainCode := explainCode;
     Provider.suggestImprovements := suggestImprovements;
     Provider.generateReport := None |}.

End Adapter.
End GroqService.

(* ===================================================================== *)
(** ** services/huggingFaceService.ts *)
(* ===================================================================== *)

Module HuggingFaceService.

(** What the adapter reads of a [fetch] response: [ok], [statusText] and
    [(await response.json())[0]?.generated_text]. *)
Record FetchResponse : Type := {
  ok : bool;
  statusText : string;
  generated_text : outcome (option string)
}.

Definition newline : string := String (ascii_of_nat 10) EmptyString.

(** The text of a [string | undefined] inside a template literal. *)
Definition interpolate (v : option string) : string :=
  match v with
  | Some s => s
  | None => "undefined"
  end.

Section Adapter.
Variable W : Type.

(** [fetch(url, {method: 'POST', headers, body})] for the value of the
    [Authorization] header and the [inputs] of the body. *)
Variable fetch : string -> string -> Async W FetchResponse.

(** Text of a [context] interpolated in a template literal. *)
Variable contextText : JsValue -> string.

Variable apiKey : option string.

(** [analyzeCode(code, language)] *)
Definition analyzeCode (code language : string) : Async W string :=
  fun w =>
    let prompt :=
      "Analyze this " ^^ language ^^
      " code for quality, security, and performance issues. Provide specific recommendations:"
      ^^ newline ^^ newline ^^ code in
    let '(attempted, w1) :=
      match fetch ("Bearer " ^^ interpolate apiKey) prompt w with
      | (Returns response, w1) =>
          if negb (ok response) then
            (Throws (mkError ("Hugging Face API error: " ^^ statusText response)), w1)
          else
            match generated_text response with
            | Returns (Some text) =>
                (Returns (if truthyString text then text
                          else "Unable to analyze code with Hugging Face API"), w1)
            | Returns None =>
                (Returns "Unable to analyze code with Hugging Face API", w1)
            | Throws error => (Throws error, w1)
            end
      | (Throws error, w1) => (Throws error, w1)
      end in
    match attempted with
    | Returns text => (Returns text, w1)
    | Throws error =>
        (Throws (mkError ("Hugging Face analysis failed: " ^^ message error)), w1)
    end.

Definition explainCode (code language : string) : Async W string :=
  let prompt :=
    "Explain what this " ^^ language ^^ " code does in simple terms:"
    ^^ newline ^^ newline ^^ code in
  analyzeCode prompt language.

Definition suggestImprovements (code language : string) (context : JsValue)
  : Async W string :=
  let prompt :=
    "Suggest improvements for this " ^^ language ^^ " code. Context: "
    ^^ contextText context ^^ newline ^^ newline
    ^^ "Focus on:" ^^ newline
    ^^ "1. Performance optimizations" ^^ newline
    ^^ "2. Best practices" ^^ newline
    ^^ "3. Code quality improvements" ^^ newline
    ^^ "4. Security enhancements" ^^ newline ^^ newline
    ^^ "Code:" ^^ newline ^^ code in
  analyzeCode prompt language.

Definition isAvailable (_ : unit) : bool := truthyOpt apiKey.

(** [new HuggingFaceService()]; the class has no [generateReport], and
    its [analyzeCode] ignores the analysis type. *)
Definition construct : AIProvider W :=
  {| Provider.isAvailable := isAvailable;
     Provider.analyzeCode := fun code language _ => analyzeCode code language;
     Provider.explainCode := explainCode;
     Provider.suggestImprovements := suggestImprovements;
     Provider.generateReport := None |}.

End Adapter.
End HuggingFaceService.

(* ===================================================================== *)
(** ** services/aiService.ts: the fallback orchestrator *)
(* ===================================================================== *)

Module AIService.
Section Orchestrator.
Variable W : Type.

(** What the attempt loop writes to the console, in order.  Every call of
    the operation on a provider is preceded by [Attempting]. *)
Inductive Event : Type :=
| Attempting (p : ProviderConfiguration W)
| Successful (p : ProviderConfiguration W)
| Failed (p : ProviderConfiguration W) (msg : string)
| RateLimitDetected (p : ProviderConfiguration W).

(** [provider => !provider.checkAvailable || provider.checkAvailable()] *)
Definition passesAvailabilityFilter (provider : ProviderConfiguration W) : bool :=
  match checkAvailable provider with
  | None => true
  | Some check => check tt
  end.

(** [getAvailableProviders()] of a service whose [this.providers] is
    [registry]. *)
Definition getAvailableProviders (registry : list (ProviderConfiguration W))
  : list (ProviderConfiguration W) :=
  sortBy priority (filter passesAvailabilityFilter registry).

(** [p => p.name.toLowerCase() === preferredProvider.toLowerCase()] *)
Definition nameMatches (preferredProvider : string)
           (p : ProviderConfiguration W) : bool :=
  (toLowerCase (name p) =? toLowerCase preferredProvider)%string.

(** Lines 24-36 of [executeWithFallback]: the candidates in the order in
    which they will be tried.  An absent [preferredProvider] is [None];
    the guard is [preferredProvider && preferredProvider !== 'auto'].  The
    [[]] branch on [removed] cannot be taken, see [splice_at_findIndex]. *)
Definition attemptOrder (registry : list (ProviderConfiguration W))
           (preferredProvider : option string)
  : list (ProviderConfiguration W) :=
  let sortedProviders := getAvailableProviders registry in
  match preferredProvider with
  | Some hint =>
      if truthyString hint && negb (hint =? "auto")%string then
        let preferredIndex := findIndex (nameMatches hint) sortedProviders in
        if preferredIndex >? -1 then
          let '(removed, remaining) :=
            splice sortedProviders (Z.to_nat preferredIndex) 1 in
          match removed with
          | preferred :: _ => preferred :: remaining
          | [] => remaining
          end
        else sortedProviders
      else sortedProviders
  | None => sortedProviders
  end.

(** [private providers]: the registry of the class, over the three
    adapter singletons. *)
Definition providers (geminiService groqService huggingFaceService : AIProvider W)
  : list (ProviderConfiguration W) :=
  [ {| name := "Gemini"; service := geminiService; priority := 1;
       checkAvailable := None |};
    {| name := "Groq"; service := groqService; priority := 2;
       checkAvailable := Some (fun _ => isAvailable groqService tt) |};
    {| name := "HuggingFace"; service := huggingFaceService; priority := 3;
       checkAvailable := None |} ].

(** The test on the message in the [catch] block; both branches of the
    [if] end in [continue]. *)
Definition isRateLimitMessage (msg : string) : bool :=
  includes msg "429" || includes msg "quota" || includes msg "rate limit".

Section Loop.
Context {T : Type}.
Variable operation : ProviderConfiguration W -> Async W T.

(** Lines 38-69: the [for ... of] loop over the candidates followed by the
    final [throw].  [lastError] is the variable of the source. *)
Fixpoint attemptLoop (candidates : list (ProviderConfiguration W))
         (lastError : option Error) (w : W)
  : outcome (T * string) * W * list Event :=
  match candidates with
  | [] =>
      (Throws (mkError
         match lastError with
         | Some e => "All AI providers failed. Last error: " ^^ message e
         | None => "No AI providers available"
         end), w, [])
  | provider :: rest =>
      match operation provider w with
      | (Returns result, w1) =>
          (Returns (result, name provider), w1,
           [Attempting provider; Successful provider])
      | (Throws error, w1) =>
          let '(res, w2, log) := attemptLoop rest (Some error) w1 in
          (res, w2,
           Attempting provider :: Failed provider (message error) ::
           (if isRateLimitMessage (message error)
            then [RateLimitDetected provider] else []) ++ log)
      end
  end.

(** [executeWithFallback(operation, preferredProvider)] of a service whose
    [this.providers] is [registry]. *)
Definition executeWithFallback (registry : list (ProviderConfiguration W))
           (preferredProvider : option string)
  : W -> outcome (T * string) * W * list Event :=
  attemptLoop (attemptOrder registry preferredProvider) None.

End Loop.

(** The providers on which the operation was called, in call order. *)
Fixpoint invoked (log : list Event) : list (ProviderConfiguration W) :=
  match log with
  | [] => []
  | Attempting p :: rest => p :: invoked rest
  | _ :: rest => invoked rest
  end.

(** The providers reported as successful. *)
Fixpoint successes (log : list Event) : list (ProviderConfiguration W) :=
  match log with
  | [] => []
  | Successful p :: rest => p :: successes rest
  | _ :: rest => successes rest
  end.

(** Calling the operation on each of [candidates] in turn, from the world
    [w], fails every time: the world reached, [None] if a call returns. *)
Fixpoint allFail {T : Type} (operation : ProviderConfiguration W -> Async W T)
         (candidates : list (ProviderConfiguration W)) (w : W) : option W :=
  match candidates with
  | [] => Some w
  | provider :: rest =>
      match operation provider w with
      | (Throws _, w1) => allFail operation rest w1
      | (Returns _, _) => None
      end
  end.

(** The failures written to the console, in order. *)
Fixpoint failures (log : list Event)
  : list (ProviderConfiguration W * string) :=
  match log with
  | [] => []
  | Failed p msg :: rest => (p, msg) :: failures rest
  | _ :: rest => failures rest
  end.

(** [new Date().toISOString()]: a reading of the clock of the world. *)
Variable toISOStringNow : W -> string * W.

(** [interface AnalysisRequest] *)
Record AnalysisRequest : Type := {
  code : string;
  language : option string;
  analysisType : option string;
  preferredProvider : option string
}.

Record Metadata : Type := {
  md_language : string;
  md_analysisType : string;
  md_timestamp : string
}.

(** [interface ProcessedAnalysisResult] *)
Record ProcessedAnalysisResult : Type := {
  analysis : string;
  provider : string;
  metadata : Metadata
}.

(** The common tail of the four wrappers: on success build the envelope,
    reading the clock after the orchestration has returned; a failure of
    [executeWithFallback] propagates. *)
Definition envelope (lang kind : string)
           (run : outcome (string * string) * W * list Event)
  : outcome ProcessedAnalysisResult * W * list Event :=
  match run with
  | (Returns (result, providerName), w1, log) =>
      let '(timestamp, w2) := toISOStringNow w1 in
      (Returns {| analysis := result;
                  provider := providerName;
                  metadata := {| md_language := lang;
                                 md_analysisType := kind;
                                 md_timestamp := timestamp |} |}, w2, log)
  | (Throws e, w1, log) => (Throws e, w1, log)
  end.

Definition orDefault (v : option string) (d : string) : string :=
  match v with Some s => s | None => d end.

Section Wrappers.
Variable registry : list (ProviderConfiguration W).

(** [analyzeCode(request)] *)
Definition analyzeCode (request : AnalysisRequest) (w : W)
  : outcome ProcessedAnalysisResult * W * list Event :=
  let code := code request in
  let language := orDefault (language request) "javascript" in
  let analysisType := orDefault (analysisType request) "general" in
  let preferredProvider := orDefault (preferredProvider request) "auto" in
  envelope language analysisType
    (executeWithFallback
       (fun provider => Provider.analyzeCode (service provider) code language analysisType)
       registry (Some preferredProvider) w).

(** [explainCode(code, language = 'javascript')] *)
Definition explainCode (code : string) (language : option string) (w : W)
  : outcome ProcessedAnalysisResult * W * list Event :=
  let language := orDefault language "javascript" in
  envelope language "explanation"
    (executeWithFallback
       (fun provider => Provider.explainCode (service provider) code language)
       registry None w).

(** [suggestImprovements(code, language = 'javascript', context = '')] *)
Definition suggestImprovements (code : string) (language : option string)
           (context : option JsValue) (w : W)
  : outcome ProcessedAnalysisResult * W * list Event :=
  let language := orDefault language "javascript" in
  let context := match context with Some c => c | None => JString "" end in
  envelope language "improvements"
    (executeWithFallback
       (fun provider =>
          Provider.suggestImprovements (service provider) code language context)
       registry None w).

(** The closure passed by [generateReport]. *)
Definition reportOperation (analysisResults : list JsValue)
           (projectInfo : JsValue) (provider : ProviderConfiguration W)
  : Async W string :=
  match Provider.generateReport (service provider) with
  | Some generate => generate analysisResults projectInfo
  | None => fun w =>
      (Throws (mkError "Report generation not supported by this provider"), w)
  end.

(** The message of that closure, and the log left by attempts on
    providers without a report method. *)
Definition unsupported : string := "Report generation not supported by this provider".

Definition skipped (ps : list (ProviderConfiguration W)) : list Event :=
  flat_map (fun p => [Attempting p; Failed p unsupported]) ps.

(** [generateReport(analysisResults, projectInfo)] *)
Definition generateReport (analysisResults : list JsValue)
           (projectInfo : JsValue) (w : W)
  : outcome ProcessedAnalysisResult * W * list Event :=
  envelope "multiple" "report"
    (executeWithFallback (reportOperation analysisResults projectInfo)
       registry None w).

(** [getAvailableProviderNames()] *)
Definition getAvailableProviderNames : list string :=
  map name (getAvailableProviders registry).

End Wrappers.
End Orchestrator.

Arguments envelope {W} toISOStringNow lang kind run.
Arguments analyzeCode {W} toISOStringNow registry request w.
Arguments explainCode {W} toISOStringNow registry code language w.
Arguments suggestImprovements {W} toISOStringNow registry code language context w.
Arguments reportOperation {W} analysisResults projectInfo provider _.
Arguments generateReport {W} toISOStringNow registry analysisResults projectInfo w.
Arguments getAvailableProviderNames {W} registry.
Arguments skipped {W} ps.
Arguments Attempting {W} p.
Arguments Successful {W} p.
Arguments Failed {W} p msg.
Arguments RateLimitDetected {W} p.
Arguments providers {W} geminiService groqService huggingFaceService.
Arguments passesAvailabilityFilter {W} provider.
Arguments getAvailableProviders {W} registry.
Arguments nameMatches {W} preferredProvider p.
Arguments attemptOrder {W} registry preferredProvider.
Arguments attemptLoop {W T} operation candidates lastError w.
Arguments executeWithFallback {W T} operation registry preferredProvider _.
Arguments invoked {W} log.
Arguments successes {W} log.
Arguments allFail {W T} operation candidates w.
Arguments failures {W} log.
End AIService.

(* ===================================================================== *)
(** ** utils/validation.ts *)
(* ===================================================================== *)

Module Validation.

(** [validateCode(code)]: the error message, or [null] as [None]. *)
Definition validateCode (code : JsValue) : option string :=
  let invalid :=
    negb (truthy code) ||
    match code with
    | JString s => strLength (trim s) =? 0
    | _ => true
    end in
  if invalid then Some "Code is required and must be a non-empty string"
  else
    match code with
    | JString s =>
        if strLength s >? 2000000 then Some "Code is too large. Maximum size is 2MB"
        else None
    | _ => None
    end.

Definition supportedLanguages : list string :=
  [ "javascript"; "typescript"; "python"; "java"; "cpp"; "c"; "csharp";
    "php"; "ruby"; "go"; "rust"; "swift"; "html"; "css"; "scss"; "json";
    "markdown"; "sql"; "bash"; "text" ].

(** [arr.includes(s)] on an array of strings. *)
Definition arrayIncludes (arr : list string) (s : string) : bool :=
  existsb (String.eqb s) arr.

(** [validateLanguage(language)] *)
Definition validateLanguage (language : JsValue) : string :=
  match language with
  | JString s =>
      if negb (truthyString s) then "javascript"
      else if arrayIncludes supportedLanguages (toLowerCase s) then toLowerCase s
      else "javascript"
  | _ => "javascript"
  end.

(** [validateAnalysisType(analysisType)] *)
Definition validateAnalysisType (analysisType : JsValue) : string :=
  match analysisType with
  | JString s =>
      if arrayIncludes ["general"; "security"; "performance"; "maintainability"] s
      then s else "general"
  | _ => "general"
  end.

(** [validateProviderType(provider)] *)
Definition validateProviderType (provider : JsValue) : string :=
  match provider with
  | JString s =>
      if arrayIncludes ["gemini"; "groq"; "huggingface"; "auto"] s
      then s else "auto"
  | _ => "auto"
  end.

(** [validateAnalysisResults(results)]: the error message, or [null] as
    [None]. *)
Definition validateAnalysisResults (results : JsValue) : option string :=
  match results with
  | JArray items =>
      if negb (truthy results) then
        Some "Analysis results must be provided as an array"
      else if Z.of_nat (List.length items) =? 0 then
        Some "Analysis results array cannot be empty"
      else if Z.of_nat (List.length items) >? 50 then
        Some "Too many analysis results. Maximum is 50"
      else None
  | _ => Some "Analysis results must be provided as an array"
  end.

End Validation.

(* ===================================================================== *)
(** ** utils/responseUtils.ts *)
(* ===================================================================== *)

Module ResponseUtils.

(** What [res.status(statusCode).json(body)] sends. *)
Record Response : Type := { statusCode : Z; body : JsValue }.

Definition sendSuccess (data : JsValue) : Response :=
  {| statusCode := 200;
     body := JObject [("success", JBool true); ("data", data)] |}.

Definition sendError (error message : string) (statusCode : Z) : Response :=
  {| statusCode := statusCode;
     body := JObject [("success", JBool false);
                      ("error", JString error);
                      ("message", JString message)] |}.

Definition sendValidationError (message : string) : Response :=
  sendError "Validation Error" message 400.

Definition sendServerError (error : Error) : Response :=
  sendError "Internal Server Error" (Js.message error) 500.

(** The three shapes a handler's response can take: a success with its
    data, a validation error, a server error. *)
Definition isEnvelope (r : Response) : Prop :=
  (statusCode r = 200 /\
   exists data, body r = JObject [("success", JBool true); ("data", data)])
  \/ (statusCode r = 400 /\
      exists msg, body r = JObject [("success", JBool false);
                                    ("error", JString "Validation Error");
                                    ("message", JString msg)])
  \/ (statusCode r = 500 /\
      exists msg, body r = JObject [("success", JBool false);
                                    ("error", JString "Internal Server Error");
                                    ("message", JString msg)]).

End ResponseUtils.

(* ===================================================================== *)
(** ** controllers/analysisController.ts *)
(* ===================================================================== *)

Module Controller.
Import Validation ResponseUtils.

(** The JSON sent for a [ProcessedAnalysisResult]. *)
Definition resultJson (r : AIService.ProcessedAnalysisResult) : JsValue :=
  JObject
    [ ("analysis", JString (AIService.analysis r));
      ("provider", JString (AIService.provider r));
      ("metadata",
       JObject
         [ ("language", JString (AIService.md_language (AIService.metadata r)));
           ("analysisType", JString (AIService.md_analysisType (AIService.metadata r)));
           ("timestamp", JString (AIService.md_timestamp (AIService.metadata r))) ]) ].

(** A value is a [ProcessedAnalysisResult] of a report: strings under
    [analysis], [provider] and [metadata.timestamp], ["multiple"] under
    [metadata.language] and ["report"] under [metadata.analysisType]. *)
Definition isString (v : JsValue) : bool :=
  match v with
  | JString _ => true
  | _ => false
  end.

Definition isStringEqual (v : JsValue) (expected : string) : bool :=
  match v with
  | JString s => (s =? expected)%string
  | _ => false
  end.

Definition hasReportResultShape (data : JsValue) : bool :=
  isString (prop data "analysis") &&
  isString (prop data "provider") &&
  isStringEqual (prop (prop data "metadata") "language") "multiple" &&
  isStringEqual (prop (prop data "metadata") "analysisType") "report" &&
  isString (prop (prop data "metadata") "timestamp").

(** The response to a request whose [code] is rejected: status 400 and
    [{success: false, error: "Validation Error", message: "Code is required
    and must be a non-empty string"}]. *)
Definition codeRejection : Response :=
  {| statusCode := 400;
     body := JObject
               [ ("success", JBool false);
                 ("error", JString "Validation Error");
                 ("message",
                  JString "Code is required and must be a non-empty string") ] |}.

Section Handlers.
Variable W : Type.
Variable toISOStringNow : W -> string * W.

(** [this.providers] of the [aiService] singleton. *)
Variable registry : list (ProviderConfiguration W).

(** The end of a handler's [try] block: [sendSuccess] on the result, and
    the [catch] block on a failure of the service. *)
Definition respond (run : outcome AIService.ProcessedAnalysisResult * W
                          * list (AIService.Event W))
  : Response * W * list (AIService.Event W) :=
  match run with
  | (Returns result, w1, log) => (sendSuccess (resultJson result), w1, log)
  | (Throws error, w1, log) => (sendServerError error, w1, log)
  end.

(** [code.trim()] on a value that is not a string throws a [TypeError],
    which the [catch] block of the handler turns into a response. *)
Definition trimFailure : Error := mkError "code.trim is not a function".

(** [analyzeCode(req, res)]; [reqBody] holds the properties of [req.body],
    the object produced by the JSON body parser. *)
Definition analyzeCode (reqBody : list (string * JsValue)) (w : W)
  : Response * W * list (AIService.Event W) :=
  let code := getField reqBody "code" in
  let language := getField reqBody "language" in
  let analysisType := getField reqBody "analysisType" in
  let preferredProvider := getField reqBody "preferredProvider" in
  match validateCode code with
  | Some codeError => (sendValidationError codeError, w, [])
  | None =>
      match code with
      | JString text =>
          let analysisRequest :=
            {| AIService.code := trim text;
               AIService.language := Some (validateLanguage language);
               AIService.analysisType := Some (validateAnalysisType analysisType);
               AIService.preferredProvider :=
                 Some (validateProviderType preferredProvider) |} in
          respond (AIService.analyzeCode toISOStringNow registry analysisRequest w)
      | _ => (sendServerError trimFailure, w, [])
      end
  end.

(** [explainCode(req, res)] *)
Definition explainCode (reqBody : list (string * JsValue)) (w : W)
  : Response * W * list (AIService.Event W) :=
  let code := getField reqBody "code" in
  let language := getField reqBody "language" in
  match validateCode code with
  | Some codeError => (sendValidationError codeError, w, [])
  | None =>
      let validatedLanguage := validateLanguage language in
      match code with
      | JString text =>
          respond (AIService.explainCode toISOStringNow registry
                     (trim text) (Some validatedLanguage) w)
      | _ => (sendServerError trimFailure, w, [])
      end
  end.

(** [x = d] in a destructuring pattern. *)
Definition withDefault (v d : JsValue) : JsValue :=
  match v with
  | JUndefined => d
  | _ => v
  end.

(** [suggestImprovements(req, res)] *)
Definition suggestImprovements (reqBody : list (string * JsValue)) (w : W)
  : Response * W * list (AIService.Event W) :=
  let code := getField reqBody "code" in
  let language := getField reqBody "language" in
  let context := withDefault (getField reqBody "context") (JString "") in
  match validateCode code with
  | Some codeError => (sendValidationError codeError, w, [])
  | None =>
      let validatedLanguage := validateLanguage language in
      match code with
      | JString text =>
          respond (AIService.suggestImprovements toISOStringNow registry
                     (trim text) (Some validatedLanguage) (Some context) w)
      | _ => (sendServerError trimFailure, w, [])
      end
  end.

(** The response to a request without usable [analysisResults]. *)
Definition reportValidationError : Response :=
  sendValidationError "Analysis results must be provided as a non-empty array".

(** [generateReport(req, res)]; the guard is [!analysisResults ||
    !Array.isArray(analysisResults) || analysisResults.length === 0]. *)
Definition generateReport (reqBody : list (string * JsValue)) (w : W)
  : Response * W * list (AIService.Event W) :=
  let analysisResults := getField reqBody "analysisResults" in
  let projectInfo := withDefault (getField reqBody "projectInfo") (JObject []) in
  match analysisResults with
  | JArray items =>
      if negb (truthy analysisResults) || (Z.of_nat (List.length items) =? 0)
      then (reportValidationError, w, [])
      else
        match AIService.generateReport toISOStringNow registry items projectInfo w with
        | (Returns report, w1, log) =>
            let '(generatedAt, w2) := toISOStringNow w1 in
            (sendSuccess
               (JObject
                  [ ("report", resultJson report);
                    ("metadata",
                     JObject
                       [ ("projectInfo", projectInfo);
                         ("generatedAt", JString generatedAt);
                         ("resultsCount", JNumber (Z.of_nat (List.length items))) ]) ]),
             w2, log)
        | (Throws error, w1, log) => (sendServerError error, w1, log)
        end
  | _ => (reportValidationError, w, [])
  end.

(** [getProviderStatus(req, res)]; [env] is [process.env]. *)
Definition getProviderStatus (env : Env) (w : W)
  : Response * W * list (AIService.Event W) :=
  let availableProviders := AIService.getAvailableProviderNames registry in
  (sendSuccess
     (JObject
        [ ("available_providers", JArray (map JString availableProviders));
          ("provider_configs",
           JObject
             [ ("gemini", JBool (truthyOpt (GEMINI_API_KEY env)));
               ("groq", JBool (truthyOpt (GROQ_API_KEY env)));
               ("huggingface", JBool (truthyOpt (HUGGINGFACE_API_KEY env))) ]) ]),
   w, []).

End Handlers.

Arguments respond {W} run.
Arguments analyzeCode {W} toISOStringNow registry reqBody w.
Arguments explainCode {W} toISOStringNow registry reqBody w.
Arguments suggestImprovements {W} toISOStringNow registry reqBody w.
Arguments generateReport {W} toISOStringNow registry reqBody w.
Arguments getProviderStatus {W} registry env w.
End Controller.

(* ===================================================================== *)
(** ** The upload component of the frontend: file names and languages *)
(* ===================================================================== *)

Module FileUpload.

Definition SUPPORTED_EXTENSIONS : list string :=
  [ ".js"; ".ts"; ".jsx"; ".tsx";
    ".py"; ".java"; ".cpp"; ".c"; ".cs";
    ".php"; ".rb"; ".go"; ".rs"; ".swift";
    ".html"; ".css"; ".scss"; ".json";
    ".md"; ".txt"; ".sql"; ".sh" ].

(** The own properties of the object [LANGUAGE_MAP]. *)
Definition LANGUAGE_MAP : list (string * string) :=
  [ (".js", "javascript"); (".jsx", "javascript");
    (".ts", "typescript"); (".tsx", "typescript");
    (".py", "python"); (".java", "java"); (".cpp", "cpp"); (".c", "c");
    (".cs", "csharp"); (".php", "php"); (".rb", "ruby"); (".go", "go");
    (".rs", "rust"); (".swift", "swift"); (".html", "html"); (".css", "css");
    (".scss", "scss"); (".json", "json"); (".md", "markdown");
    (".sql", "sql"); (".sh", "bash") ].

(** [s.lastIndexOf(c)] for a one-character [c]: [-1] when [c] is absent. *)
Fixpoint lastIndexOf (s : string) (c : ascii) : Z :=
  match s with
  | EmptyString => -1
  | String a rest =>
      let i := lastIndexOf rest c in
      if i >=? 0 then i + 1
      else if Ascii.eqb a c then 0 else -1
  end.

Fixpoint dropChars (n : nat) (s : string) : string :=
  match n, s with
  | O, _ => s
  | S n', EmptyString => EmptyString
  | S n', String _ rest => dropChars n' rest
  end.

(** [s.substring(start)]: a negative [start] counts as 0, one past the
    end as the length. *)
Definition substring (s : string) (start : Z) : string :=
  dropChars (Z.to_nat start) s.

(** [getFileExtension(filename)] *)
Definition getFileExtension (filename : string) : string :=
  substring (toLowerCase filename) (lastIndexOf filename ".").

(** [isCodeFile(file)], on the name of the file. *)
Definition isCodeFile (filename : string) : bool :=
  existsb (String.eqb (getFileExtension filename)) SUPPORTED_EXTENSIONS.

Fixpoint ownProperty (map : list (string * string)) (key : string)
  : option string :=
  match map with
  | [] => None
  | (k, v) :: rest => if (k =? key)%string then Some v else ownProperty rest key
  end.

(** [getLanguageFromExtension(filename)], that is [LANGUAGE_MAP[ext] ||
    'text'].  Only the own properties of the map are looked up, which is
    all there is for a key that starts with a dot. *)
Definition getLanguageFromExtension (filename : string) : string :=
  match ownProperty LANGUAGE_MAP (getFileExtension filename) with
  | Some language => if truthyString language then language else "text"
  | None => "text"
  end.

End FileUpload.

(* ===================================================================== *)
(** ** The backend as a whole: module loading *)
(* ===================================================================== *)

Module Backend.

(** Everything outside the process that the provider layer talks to. *)
Record Platform (W : Type) : Type := {
  sleep : Z -> W -> W;
  toISOStringNow : W -> string * W;
  GenerateContentResult : Type;
  generateContent : string -> Async W GenerateContentResult;
  responseText : GenerateContentResult -> Async W string;
  geminiAnalysisPrompt : string -> string -> string -> string;
  geminiReportPrompt : list JsValue -> JsValue -> string;
  geminiExplainPrompt : string -> string -> string;
  geminiImprovePrompt : string -> string -> JsValue -> string;
  chatCompletionsCreate : string -> Z -> Async W (option string);
  groqAnalysisPrompt : string -> string -> string -> string;
  groqExplainPrompt : string -> string -> string;
  groqImprovePrompt : string -> string -> JsValue -> string;
  fetch : string -> string -> Async W HuggingFaceService.FetchResponse;
  contextText : JsValue -> string
}.
Arguments sleep {W} _ _ _.
Arguments toISOStringNow {W} _ _.
Arguments GenerateContentResult {W} _.
Arguments generateContent {W} _ _ _.
Arguments responseText {W} _ _ _.
Arguments geminiAnalysisPrompt {W} _ _ _ _.
Arguments geminiReportPrompt {W} _ _ _.
Arguments geminiExplainPrompt {W} _ _ _.
Arguments geminiImprovePrompt {W} _ _ _ _.
Arguments chatCompletionsCreate {W} _ _ _ _.
Arguments groqAnalysisPrompt {W} _ _ _ _.
Arguments groqExplainPrompt {W} _ _ _.
Arguments groqImprovePrompt {W} _ _ _ _.
Arguments fetch {W} _ _ _ _.
Arguments contextText {W} _ _.

Section Load.
Context {W : Type}.
Variable P : Platform W.
Variable env : Env.

(** [export default new GeminiService()] at the end of geminiService.ts:
    evaluating the module either yields the singleton or throws. *)
Definition geminiService : outcome (AIProvider W) :=
  GeminiService.construct W (sleep P) (GenerateContentResult P)
    (generateContent P) (responseText P)
    (geminiAnalysisPrompt P) (geminiReportPrompt P)
    (geminiExplainPrompt P) (geminiImprovePrompt P) (config env).

(** [export default new GroqService()] *)
Definition groqService : AIProvider W :=
  GroqService.construct W (chatCompletionsCreate P)
    (groqAnalysisPrompt P) (groqExplainPrompt P) (groqImprovePrompt P)
    (GROQ_API_KEY env).

(** [export default new HuggingFaceService()] *)
Definition huggingFaceService : AIProvider W :=
  HuggingFaceService.construct W (fetch P) (contextText P)
    (HUGGINGFACE_API_KEY env).

(** Evaluating aiService.ts: its imports are evaluated first, so a throw
    of geminiService.ts aborts the load; otherwise [new AIService()] is
    built and its [providers] field is the registry. *)
Definition aiService : outcome (list (ProviderConfiguration W)) :=
  match geminiService with
  | Throws error => Throws error
  | Returns gemini =>
      Returns (AIService.providers gemini groqService huggingFaceService)
  end.

End Load.
End Backend.

(* ===================================================================== *)
(** ** Fixtures: scripted providers and a scripted platform *)
(* ===================================================================== *)

Module Fixtures.

(** A provider over a world without state whose four operations complete
    with [result]; it has a report method exactly when [report] is given. *)
Definition scripted (result : outcome string) (report : option (outcome string))
  : AIProvider unit :=
  {| Provider.isAvailable := fun _ => true;
     Provider.analyzeCode := fun _ _ _ w => (result, w);
     Provider.explainCode := fun _ _ w => (result, w);
     Provider.suggestImprovements := fun _ _ _ w => (result, w);
     Provider.generateReport :=
       match report with
       | Some r => Some (fun _ _ w => (r, w))
       | None => None
       end |}.

Definition entry (name : string) (priority : Z) (service : AIProvider unit)
           (checkAvailable : option (unit -> bool)) : ProviderConfiguration unit :=
  {| Provider.name := name; Provider.service := service;
     Provider.priority := priority; Provider.checkAvailable := checkAvailable |}.

Definition failing (msg : string) : AIProvider unit :=
  scripted (Throws (mkError msg)) None.

Definition succeeding (text : string) : AIProvider unit :=
  scripted (Returns text) None.

(** Three providers registered out of priority order: the first fails,
    the other two succeed. *)
Definition P1 : ProviderConfiguration unit := entry "P1" 1 (failing "P1 is down") None.
Definition P2 : ProviderConfiguration unit := entry "P2" 2 (succeeding "answer of P2") None.
Definition P3 : ProviderConfiguration unit := entry "P3" 3 (succeeding "answer of P3") None.
Definition registry123 : list (ProviderConfiguration unit) := [P3; P1; P2].

(** The closure built by [AIService.analyzeCode]. *)
Definition analyzeOperation (p : ProviderConfiguration unit) : Async unit string :=
  Provider.analyzeCode (service p) "console.log(1)" "javascript" "general".

(** Two providers that both fail. *)
Definition D1 : ProviderConfiguration unit := entry "D1" 1 (failing "429 Too Many Requests") None.
Definition D2 : ProviderConfiguration unit := entry "D2" 2 (failing "socket hang up") None.

(** A registry in which only the second provider can generate reports. *)
Definition R1 : ProviderConfiguration unit := entry "R1" 1 (succeeding "answer of R1") None.
Definition R2 : ProviderConfiguration unit :=
  entry "R2" 2 (scripted (Returns "answer of R2") (Some (Returns "report of R2"))) None.
Definition R3 : ProviderConfiguration unit := entry "R3" 3 (succeeding "answer of R3") None.
Definition reportRegistry : list (ProviderConfiguration unit) := [R1; R2; R3].

(** A clock that always reads the same instant. *)
Definition frozenClock (w : unit) : string * unit := ("2025-01-01T00:00:00.000Z", w).

(** The body of a report request with one prior result. *)
Definition reportBody : list (string * JsValue) :=
  [("analysisResults", JArray [JString "prior analysis"])].

(** A world that counts the calls made to remote services. *)
Definition Calls : Type := nat.

(** An operation that is rate limited on every call. *)
Definition alwaysRateLimited : Async Calls string :=
  fun w => (Throws (mkError "429 Too Many Requests"), S w).

(** An operation that fails once for a reason other than rate limiting. *)
Definition brokenPipe : Async Calls string :=
  fun w => (Throws (mkError "write EPIPE"), S w).

Definition noSleep (delay : Z) (w : Calls) : Calls := w.

Definition frozenCalls (w : Calls) : string * Calls :=
  ("2025-01-01T00:00:00.000Z", w).

(** A platform whose model and chat endpoints reject every call with the
    given messages and whose inference endpoint answers with a status that
    is not ok. *)
Definition rejecting (geminiMsg groqMsg hfStatus : string) : Backend.Platform Calls :=
  {| Backend.sleep := noSleep;
     Backend.toISOStringNow := frozenCalls;
     Backend.GenerateContentResult := string;
     Backend.generateContent := fun _ w => (Throws (mkError geminiMsg), S w);
     Backend.responseText := fun text w => (Returns text, w);
     Backend.geminiAnalysisPrompt := fun code _ _ => code;
     Backend.geminiReportPrompt := fun _ _ => "report";
     Backend.geminiExplainPrompt := fun code _ => code;
     Backend.geminiImprovePrompt := fun code _ _ => code;
     Backend.chatCompletionsCreate := fun _ _ w => (Throws (mkError groqMsg), S w);
     Backend.groqAnalysisPrompt := fun code _ _ => code;
     Backend.groqExplainPrompt := fun code _ => code;
     Backend.groqImprovePrompt := fun code _ _ => code;
     Backend.fetch := fun _ _ w =>
       (Returns {| HuggingFaceService.ok := false;
                   HuggingFaceService.statusText := hfStatus;
                   HuggingFaceService.generated_text := Returns None |}, S w);
     Backend.contextText := fun _ => "" |}.

Definition outage : Backend.Platform Calls :=
  rejecting "503 Service Unavailable" "Connection error." "Unauthorized".

(** Keys for Gemini and Groq, none for Hugging Face. *)
Definition envWithoutHuggingFace : Env :=
  {| GEMINI_API_KEY := Some "gemini-key";
     GROQ_API_KEY := Some "groq-key";
     HUGGINGFACE_API_KEY := None |}.

(** A key for Gemini only. *)
Definition envGeminiOnly : Env :=
  {| GEMINI_API_KEY := Some "gemini-key";
     GROQ_API_KEY := None;
     HUGGINGFACE_API_KEY := None |}.

(** No key for Gemini. *)
Definition envWithoutGemini : Env :=
  {| GEMINI_API_KEY := None;
     GROQ_API_KEY := Some "groq-key";
     HUGGINGFACE_API_KEY := Some "hf-key" |}.

Definition request : AIService.AnalysisRequest :=
  {| AIService.code := "console.log(1)";
     AIService.language := Some "javascript";
     AIService.analysisType := Some "general";
     AIService.preferredProvider := Some "auto" |}.

(** A provider whose registry entry reports it as unavailable. *)
Definition U2 : ProviderConfiguration unit :=
  entry "U2" 2 (succeeding "answer of U2") (Some (fun _ => false)).
Definition registryWithUnavailable : list (ProviderConfiguration unit) :=
  [P1; U2; P3].

(** A platform on which every remote service answers. *)
Definition healthy : Backend.Platform Calls :=
  {| Backend.sleep := noSleep;
     Backend.toISOStringNow := frozenCalls;
     Backend.GenerateContentResult := string;
     Backend.generateContent := fun _ w => (Returns "gemini says ok", S w);
     Backend.responseText := fun text w => (Returns text, w);
     Backend.geminiAnalysisPrompt := fun code _ _ => code;
     Backend.geminiReportPrompt := fun _ _ => "report";
     Backend.geminiExplainPrompt := fun code _ => code;
     Backend.geminiImprovePrompt := fun code _ _ => code;
     Backend.chatCompletionsCreate := fun _ _ w => (Returns None, S w);
     Backend.groqAnalysisPrompt := fun code _ _ => code;
     Backend.groqExplainPrompt := fun code _ => code;
     Backend.groqImprovePrompt := fun code _ _ => code;
     Backend.fetch := fun _ _ w =>
       (Returns {| HuggingFaceService.ok := true;
                   HuggingFaceService.statusText := "OK";
                   HuggingFaceService.generated_text := Returns (Some "") |}, S w);
     Backend.contextText := fun _ => "" |}.

(** An operation that is rate limited once and then answers. *)
Definition limitedOnce : Async Calls string :=
  fun w =>
    match w with
    | O => (Throws (mkError "429 Too Many Requests"), S w)
    | S _ => (Returns "done", S w)
    end.

(** The body of a valid analyze request. *)
Definition analyzeBody : list (string * JsValue) :=
  [ ("code", JString "  console.log(1)  ");
    ("language", JString "TypeScript");
    ("analysisType", JString "security");
    ("preferredProvider", JString "p3") ].

End Fixtures.

(* ===================================================================== *)
(** * Properties *)
(* ===================================================================== *)

(** ** The JavaScript primitives on sample inputs *)

Example toLowerCase_HuggingFace : toLowerCase "HuggingFace" = "huggingface".
Proof. reflexivity. Qed.

Example includes_quota :
  includes "Resource has been exhausted (e.g. check quota)." "quota" = true.
Proof. reflexivity. Qed.

Example trim_blank : trim "  	 " = "".
Proof. reflexivity. Qed.

Example findIndex_miss : findIndex (Z.eqb 7) [1; 2; 3] = -1.
Proof. reflexivity. Qed.

Example findIndex_hit : findIndex (Z.eqb 3) [1; 2; 3; 3] = 2.
Proof. reflexivity. Qed.

Example splice_middle : splice [1; 2; 3; 4] 2 1 = ([3], [1; 2; 4]).
Proof. reflexivity. Qed.

Example sortBy_stable :
  sortBy fst [(2, "a"); (1, "b"); (2, "c"); (1, "d")]
  = [(1, "b"); (1, "d"); (2, "a"); (2, "c")].
Proof. reflexivity. Qed.


(** ** Sorting, searching and splicing *)

Section SortFacts.
Context {A : Type}.
Variable key : A -> Z.

Lemma insertSorted_perm (x : A) (l : list A) :
  Permutation (insertSorted key x l) (x :: l).
Proof.
  induction l as [|y l IH]; simpl.
  - apply Permutation_refl.
  - destruct (key x - key y <=? 0).
    + apply Permutation_refl.
    + eapply perm_trans; [apply perm_skip, IH | apply perm_swap].
Qed.

Lemma sortBy_perm (l : list A) : Permutation (sortBy key l) l.
Proof.
  induction l as [|x l IH]; simpl.
  - constructor.
  - eapply perm_trans; [apply insertSorted_perm | apply perm_skip, IH].
Qed.

Lemma insertSorted_sorted (x : A) (l : list A) :
  StronglySorted (ascending key) l -> StronglySorted (ascending key) (insertSorted key x l).
Proof.
  induction l as [|y l IH]; simpl; intros Hs.
  - repeat constructor.
  - inversion Hs as [|? ? Hl Hy]; subst.
    destruct (key x - key y <=? 0) eqn:E.
    + apply Z.leb_le in E. constructor; [assumption|].
      constructor; [unfold ascending; lia|].
      eapply Forall_impl; [|exact Hy].
      unfold ascending; intros; lia.
    + apply Z.leb_gt in E. constructor; [apply IH, Hl|].
      eapply Permutation_Forall.
      * apply Permutation_sym, insertSorted_perm.
      * constructor; [unfold ascending; lia | exact Hy].
Qed.

Lemma sortBy_sorted (l : list A) : StronglySorted (ascending key) (sortBy key l).
Proof.
  induction l as [|x l IH]; simpl.
  - constructor.
  - apply insertSorted_sorted, IH.
Qed.

(** Stability: elements with the same key keep their order. *)
Lemma insertSorted_stable (k : Z) (x : A) (l : list A) :
  StronglySorted (ascending key) l ->
  filter (fun a => key a =? k) (insertSorted key x l)
  = filter (fun a => key a =? k) (x :: l).
Proof.
  induction l as [|y l IH]; intros Hs; [reflexivity|].
  inversion Hs as [|? ? Hl Hy]; subst.
  cbn [insertSorted].
  destruct (key x - key y <=? 0) eqn:E; [reflexivity|].
  apply Z.leb_gt in E.
  cbn [filter]. rewrite (IH Hl). cbn [filter].
  destruct (key y =? k) eqn:Ey, (key x =? k) eqn:Ex; try reflexivity.
  apply Z.eqb_eq in Ey, Ex. lia.
Qed.

Lemma sortBy_stable_on_keys (k : Z) (l : list A) :
  filter (fun a => key a =? k) (sortBy key l) = filter (fun a => key a =? k) l.
Proof.
  induction l as [|x l IH]; [reflexivity|].
  cbn [sortBy]. rewrite insertSorted_stable by apply sortBy_sorted.
  cbn [filter]. rewrite IH. reflexivity.
Qed.

End SortFacts.

Section SearchFacts.
Context {A : Type}.
Variable pred : A -> bool.

Lemma findIndex_lower_bound (l : list A) : -1 <= findIndex pred l.
Proof.
  induction l as [|x l IH]; simpl; [lia|].
  destruct (pred x); [lia|].
  destruct (findIndex pred l <? 0) eqn:E; [lia|].
  apply Z.ltb_ge in E. lia.
Qed.

(** A hit of [findIndex] splits the array at the first match. *)
Lemma findIndex_hit_split (l : list A) :
  findIndex pred l > -1 ->
  exists before x after,
    l = before ++ x :: after /\
    Forall (fun y => pred y = false) before /\
    pred x = true /\
    findIndex pred l = Z.of_nat (List.length before).
Proof.
  induction l as [|y l IH]; simpl; [lia|].
  destruct (pred y) eqn:Ey.
  - intros _. exists [], y, l. repeat split; trivial.
  - destruct (findIndex pred l <? 0) eqn:E; [lia|].
    apply Z.ltb_ge in E. intros _.
    destruct IH as (before & x & after & -> & Hb & Hx & Hi); [lia|].
    exists (y :: before), x, after. repeat split; trivial.
    + constructor; assumption.
    + rewrite Hi. simpl List.length. lia.
Qed.

Lemma findIndex_at (before after : list A) (x : A) :
  Forall (fun y => pred y = false) before ->
  pred x = true ->
  findIndex pred (before ++ x :: after) = Z.of_nat (List.length before).
Proof.
  intros Hb Hx. induction Hb as [|y before Hy _ IH]; simpl.
  - rewrite Hx. reflexivity.
  - rewrite Hy, IH.
    destruct (Z.of_nat (List.length before) <? 0) eqn:E;
      [apply Z.ltb_lt in E; lia | lia].
Qed.

Lemma findIndex_finds (l : list A) (x : A) :
  In x l -> pred x = true -> findIndex pred l > -1.
Proof.
  induction l as [|y l IH]; simpl; [tauto|].
  intros [->|Hin] Hx.
  - rewrite Hx. lia.
  - destruct (pred y); [lia|].
    specialize (IH Hin Hx).
    destruct (findIndex pred l <? 0) eqn:E; [apply Z.ltb_lt in E; lia | lia].
Qed.

Lemma splice_one_at (before after : list A) (x : A) :
  splice (before ++ x :: after) (List.length before) 1 = ([x], before ++ after).
Proof.
  unfold splice. f_equal.
  - rewrite skipn_app, skipn_all, Nat.sub_diag. reflexivity.
  - rewrite firstn_app, firstn_all, Nat.sub_diag. simpl. rewrite app_nil_r.
    f_equal. rewrite skipn_app, skipn_all2 by lia.
    replace (List.length before + 1 - List.length before)%nat with 1%nat by lia.
    reflexivity.
Qed.

End SearchFacts.

(** ** The attempt order *)

Section OrderFacts.
Import AIService.
Context {W : Type}.
Variable registry : list (ProviderConfiguration W).

Lemma getAvailableProviders_perm :
  Permutation (getAvailableProviders registry)
              (filter passesAvailabilityFilter registry).
Proof. apply sortBy_perm. Qed.

Lemma getAvailableProviders_sorted :
  StronglySorted (ascending priority) (getAvailableProviders registry).
Proof. apply sortBy_sorted. Qed.

Lemma attemptOrder_absent :
  attemptOrder registry None = getAvailableProviders registry.
Proof. reflexivity. Qed.

Lemma attemptOrder_empty_hint :
  attemptOrder registry (Some "") = getAvailableProviders registry.
Proof. reflexivity. Qed.

Lemma attemptOrder_auto :
  attemptOrder registry (Some "auto") = getAvailableProviders registry.
Proof. reflexivity. Qed.

Lemma hint_guard (hint : string) :
  hint <> "" -> hint <> "auto" ->
  truthyString hint && negb (hint =? "auto")%string = true.
Proof.
  intros H1 H2. unfold truthyString.
  apply String.eqb_neq in H1, H2. rewrite H1, H2. reflexivity.
Qed.

(** The preferred provider is spliced out and put in front. *)
Lemma attemptOrder_preferred (hint : string) before p after :
  hint <> "" -> hint <> "auto" ->
  getAvailableProviders registry = before ++ p :: after ->
  Forall (fun y => nameMatches hint y = false) before ->
  nameMatches hint p = true ->
  attemptOrder registry (Some hint) = p :: before ++ after.
Proof.
  intros H1 H2 Hs Hb Hp. unfold attemptOrder.
  rewrite hint_guard by assumption. rewrite Hs.
  rewrite (findIndex_at _ before after p Hb Hp).
  replace (Z.of_nat (List.length before) >? -1) with true
    by (symmetry; apply Z.gtb_lt; lia).
  rewrite Nat2Z.id, splice_one_at. reflexivity.
Qed.

Lemma attemptOrder_unmatched (hint : string) :
  findIndex (nameMatches hint) (getAvailableProviders registry) = -1 ->
  attemptOrder registry (Some hint) = getAvailableProviders registry.
Proof.
  intros H. unfold attemptOrder. rewrite H.
  destruct (truthyString hint && negb (hint =? "auto")%string); reflexivity.
Qed.

(** Whatever the hint, the order is the sorted list or the sorted list
    with its first match moved to the front. *)
Lemma attemptOrder_cases (preferredProvider : option string) :
  attemptOrder registry preferredProvider = getAvailableProviders registry \/
  exists hint before p after,
    preferredProvider = Some hint /\
    getAvailableProviders registry = before ++ p :: after /\
    Forall (fun y => nameMatches hint y = false) before /\
    nameMatches hint p = true /\
    attemptOrder registry preferredProvider = p :: before ++ after.
Proof.
  destruct preferredProvider as [hint|]; [|left; reflexivity].
  destruct (String.eqb_spec hint ""); [subst; left; reflexivity|].
  destruct (String.eqb_spec hint "auto"); [subst; left; reflexivity|].
  destruct (Z.eq_dec (findIndex (nameMatches hint)
                        (getAvailableProviders registry)) (-1)) as [E|E].
  - left. apply attemptOrder_unmatched, E.
  - right.
    pose proof (findIndex_lower_bound (nameMatches hint)
                  (getAvailableProviders registry)) as Hlb.
    destruct (findIndex_hit_split (nameMatches hint)
                (getAvailableProviders registry))
      as (before & p & after & Hs & Hb & Hp & _); [lia|].
    exists hint, before, p, after. repeat split; trivial.
    apply attemptOrder_preferred; assumption.
Qed.

Lemma attemptOrder_perm (preferredProvider : option string) :
  Permutation (attemptOrder registry preferredProvider)
              (filter passesAvailabilityFilter registry).
Proof.
  eapply perm_trans; [|apply getAvailableProviders_perm].
  destruct (attemptOrder_cases preferredProvider)
    as [->|(hint & before & p & after & _ & -> & _ & _ & ->)].
  - apply Permutation_refl.
  - apply Permutation_middle.
Qed.

(** Every candidate passed the filter of [getAvailableProviders]. *)
Lemma attemptOrder_passes_filter (preferredProvider : option string) p :
  In p (attemptOrder registry preferredProvider) ->
  In p registry /\ passesAvailabilityFilter p = true.
Proof.
  intros Hin. apply filter_In.
  eapply Permutation_in; [apply attemptOrder_perm | exact Hin].
Qed.

End OrderFacts.

(** ** The attempt loop *)

Lemma prefix_refl (s : string) : String.prefix s s = true.
Proof.
  induction s as [|c s IH]; [reflexivity|].
  simpl. destruct (ascii_dec c c); [exact IH | congruence].
Qed.

Lemma includes_self (s : string) : includes s s = true.
Proof. destruct s; simpl; [reflexivity|]. rewrite prefix_refl. destruct (ascii_dec a a); [reflexivity|congruence]. Qed.

(** A message built by appending contains what was appended. *)
Lemma includes_append (a b : string) : includes (a ^^ b) b = true.
Proof.
  induction a as [|c a IH]; simpl.
  - apply includes_self.
  - rewrite IH. apply orb_true_r.
Qed.

Section LoopFacts.
Import AIService.
Context {W T : Type}.
Variable operation : ProviderConfiguration W -> Async W T.

Lemma invoked_app (l1 l2 : list (Event W)) :
  invoked (l1 ++ l2) = invoked l1 ++ invoked l2.
Proof.
  induction l1 as [|[] l1 IH]; simpl; rewrite ?IH; reflexivity.
Qed.

Lemma successes_app (l1 l2 : list (Event W)) :
  successes (l1 ++ l2) = successes l1 ++ successes l2.
Proof.
  induction l1 as [|[] l1 IH]; simpl; rewrite ?IH; reflexivity.
Qed.

Lemma failures_app (l1 l2 : list (Event W)) :
  failures (l1 ++ l2) = failures l1 ++ failures l2.
Proof.
  induction l1 as [|[] l1 IH]; simpl; rewrite ?IH; reflexivity.
Qed.

(** One failed iteration of the loop. *)
Lemma attemptLoop_failed_step p rest lastError w error w1 :
  operation p w = (Throws error, w1) ->
  exists note,
    (note = [] \/ note = [RateLimitDetected p]) /\
    attemptLoop operation (p :: rest) lastError w
    = let '(res, w2, log) := attemptLoop operation rest (Some error) w1 in
      (res, w2, Attempting p :: Failed p (message error) :: note ++ log).
Proof.
  intros Hop. simpl. rewrite Hop.
  destruct (attemptLoop operation rest (Some error) w1) as [[res w2] log].
  destruct (isRateLimitMessage (message error));
    eexists; (split; [|reflexivity]); auto.
Qed.

(** The loop stops at the first candidate on which the operation returns. *)
Lemma attemptLoop_first_success before p after :
  forall lastError w w1 w2 r,
  allFail operation before w = Some w1 ->
  operation p w1 = (Returns r, w2) ->
  exists log,
    attemptLoop operation (before ++ p :: after) lastError w
    = (Returns (r, name p), w2, log) /\
    invoked log = before ++ [p] /\
    successes log = [p] /\
    map fst (failures log) = before.
Proof.
  induction before as [|q before IH]; intros lastError w w1 w2 r Hfail Hop.
  - simpl in Hfail. injection Hfail as <-. simpl. rewrite Hop.
    eexists. repeat split.
  - simpl in Hfail.
    destruct (operation q w) as [[v|error] wq] eqn:Hq; [discriminate|].
    destruct (IH (Some error) wq w1 w2 r Hfail Hop) as (log & Hrun & Hi & Hs & Hf).
    destruct (attemptLoop_failed_step q (before ++ p :: after) lastError w error wq Hq)
      as (note & Hnote & Hstep).
    rewrite <- app_comm_cons, Hstep, Hrun.
    eexists. split; [reflexivity|].
    destruct Hnote as [-> | ->]; simpl; rewrite Hi, Hs, Hf; repeat split.
Qed.

(** When every candidate fails, the loop ends in the aggregate error built
    from the last failure. *)
Lemma attemptLoop_all_fail before final :
  forall lastError w w1 w2 error,
  allFail operation before w = Some w1 ->
  operation final w1 = (Throws error, w2) ->
  exists log,
    attemptLoop operation (before ++ [final]) lastError w
    = (Throws (mkError ("All AI providers failed. Last error: " ^^ message error)),
       w2, log) /\
    invoked log = before ++ [final] /\
    successes log = [] /\
    map fst (failures log) = before ++ [final].
Proof.
  induction before as [|q before IH]; intros lastError w w1 w2 error Hfail Hop.
  - simpl in Hfail. injection Hfail as <-.
    destruct (attemptLoop_failed_step final [] lastError w error w2 Hop)
      as (note & Hnote & Hstep).
    simpl app. rewrite Hstep. simpl.
    eexists. split; [reflexivity|].
    destruct Hnote as [-> | ->]; simpl; repeat split.
  - simpl in Hfail.
    destruct (operation q w) as [[v|e] wq] eqn:Hq; [discriminate|].
    destruct (IH (Some e) wq w1 w2 error Hfail Hop) as (log & Hrun & Hi & Hs & Hf).
    destruct (attemptLoop_failed_step q (before ++ [final]) lastError w e wq Hq)
      as (note & Hnote & Hstep).
    rewrite <- app_comm_cons, Hstep, Hrun.
    eexists. split; [reflexivity|].
    destruct Hnote as [-> | ->]; simpl; rewrite Hi, Hs, Hf; repeat split.
Qed.

(** Either every candidate fails, or there is a first one on which the
    operation returns. *)
Lemma attempts_split candidates :
  forall w,
  (exists w1, allFail operation candidates w = Some w1) \/
  (exists before p after w1 r w2,
      candidates = before ++ p :: after /\
      allFail operation before w = Some w1 /\
      operation p w1 = (Returns r, w2)).
Proof.
  induction candidates as [|q candidates IH]; intros w.
  - left. exists w. reflexivity.
  - destruct (operation q w) as [[r|error] wq] eqn:Hq.
    + right. exists [], q, candidates, w, r, wq. auto.
    + destruct (IH wq) as [(w1 & Hall)|(before & p & after & w1 & r & w2 & -> & Hall & Hop)].
      * left. exists w1. simpl. rewrite Hq. exact Hall.
      * right. exists (q :: before), p, after, w1, r, w2.
        repeat split; trivial. simpl. rewrite Hq. exact Hall.
Qed.

(** The providers called are an initial segment of the candidates, and
    only they can be reported as failed. *)
Lemma attemptLoop_invoked_prefix candidates :
  forall lastError w,
  exists rest,
    candidates = invoked (snd (attemptLoop operation candidates lastError w)) ++ rest /\
    incl (map fst (failures (snd (attemptLoop operation candidates lastError w))))
         (invoked (snd (attemptLoop operation candidates lastError w))).
Proof.
  induction candidates as [|p candidates IH]; intros lastError w.
  - exists []. simpl. split; [reflexivity | apply incl_refl].
  - destruct (operation p w) as [[v|error] w1] eqn:Hop.
    + simpl. rewrite Hop. simpl. exists candidates. split; [reflexivity|].
      apply incl_nil_l.
    + destruct (attemptLoop_failed_step p candidates lastError w error w1 Hop)
        as (note & Hnote & Hstep).
      rewrite Hstep.
      destruct (IH (Some error) w1) as (rest & Hrest & Hincl).
      destruct (attemptLoop operation candidates (Some error) w1) as [[res w2] log].
      simpl in *. exists rest.
      rewrite invoked_app, failures_app.
      destruct Hnote as [-> | ->]; simpl; (split; [congruence|]);
        (apply incl_cons; [left; reflexivity | apply incl_tl, Hincl]).
Qed.

End LoopFacts.

(** ** The orchestrator *)

Section OrchestratorFacts.
Import AIService.
Context {W : Type}.

(** Only providers that passed the filter of [getAvailableProviders] are
    ever called or reported as failed, whatever the hint: an entry whose
    [checkAvailable] returns [false] takes no part in an invocation. *)
Lemma executeWithFallback_calls_only_filtered {T : Type}
      (operation : ProviderConfiguration W -> Async W T)
      (registry : list (ProviderConfiguration W))
      (preferredProvider : option string) (w : W) (p : ProviderConfiguration W) :
  In p (invoked (snd (executeWithFallback operation registry preferredProvider w)))
  \/ In p (map fst (failures
             (snd (executeWithFallback operation registry preferredProvider w)))) ->
  In p registry /\ passesAvailabilityFilter p = true.
Proof.
  unfold executeWithFallback.
  destruct (attemptLoop_invoked_prefix operation
              (attemptOrder registry preferredProvider) None w)
    as (rest & Hrest & Hincl).
  intros H.
  assert (Hin : In p (invoked (snd (attemptLoop operation
                       (attemptOrder registry preferredProvider) None w))))
    by (destruct H as [H|H]; [exact H | apply Hincl, H]).
  apply (attemptOrder_passes_filter registry preferredProvider).
  rewrite Hrest. apply in_or_app. left. exact Hin.
Qed.

(** C1. First success wins: when the candidates before [p] in the attempt
    order all fail and the operation returns [r] on [p],
    [executeWithFallback] returns [r] together with the name of [p]; the
    providers called are exactly the ones up to and including [p], so none
    after [p] is called, and [p] is the one provider reported successful. *)
Theorem first_success_wins {T : Type}
        (operation : ProviderConfiguration W -> Async W T)
        (registry : list (ProviderConfiguration W))
        (preferredProvider : option string)
        (before after : list (ProviderConfiguration W))
        (p : ProviderConfiguration W) (w w1 w2 : W) (r : T) :
  attemptOrder registry preferredProvider = before ++ p :: after ->
  allFail operation before w = Some w1 ->
  operation p w1 = (Returns r, w2) ->
  exists log,
    executeWithFallback operation registry preferredProvider w
    = (Returns (r, name p), w2, log) /\
    invoked log = before ++ [p] /\
    successes log = [p].
Proof.
  intros Horder Hfail Hop. unfold executeWithFallback. rewrite Horder.
  destruct (attemptLoop_first_success operation before p after None w w1 w2 r
              Hfail Hop) as (log & Hrun & Hi & Hs & _).
  exists log. auto.
Qed.

(** C2. The attempt order is a permutation of the available providers;
    without a hint (absent, empty or "auto") it is the list sorted
    ascending by priority; with a hint that matches the name of an
    available provider, ignoring case, the first such provider of the
    sorted list is in front and the others keep their order. *)
Theorem attempt_order_is_sorted_permutation_with_preference
        (registry : list (ProviderConfiguration W))
        (preferredProvider : option string) :
  Permutation (attemptOrder registry preferredProvider)
              (filter passesAvailabilityFilter registry)
  /\ (preferredProvider = None \/ preferredProvider = Some ""
      \/ preferredProvider = Some "auto" ->
      attemptOrder registry preferredProvider = getAvailableProviders registry /\
      StronglySorted (ascending priority) (attemptOrder registry preferredProvider))
  /\ (forall hint p,
        preferredProvider = Some hint -> hint <> "" -> hint <> "auto" ->
        In p (filter passesAvailabilityFilter registry) ->
        toLowerCase (name p) = toLowerCase hint ->
        StronglySorted (ascending priority) (getAvailableProviders registry) /\
        exists before q after,
          getAvailableProviders registry = before ++ q :: after /\
          Forall (fun y => toLowerCase (name y) <> toLowerCase hint) before /\
          toLowerCase (name q) = toLowerCase hint /\
          attemptOrder registry preferredProvider = q :: before ++ after /\
          ((forall y, In y (filter passesAvailabilityFilter registry) ->
                      toLowerCase (name y) = toLowerCase hint -> y = p) ->
           q = p)).
Proof.
  split; [apply attemptOrder_perm|]. split.
  - intros Hhint.
    assert (E : attemptOrder registry preferredProvider
                = getAvailableProviders registry)
      by (destruct Hhint as [->|[->| ->]]; reflexivity).
    split; [exact E|]. rewrite E. apply getAvailableProviders_sorted.
  - intros hint p -> Hne Hna Hin Hname.
    split; [apply getAvailableProviders_sorted|].
    assert (Hp : nameMatches hint p = true) by (apply String.eqb_eq, Hname).
    assert (Hfound : findIndex (nameMatches hint) (getAvailableProviders registry) > -1).
    { apply findIndex_finds with (x := p); [|exact Hp].
      eapply Permutation_in;
        [apply Permutation_sym, getAvailableProviders_perm | exact Hin]. }
    destruct (findIndex_hit_split _ _ Hfound)
      as (before & q & after & Hs & Hb & Hq & _).
    exists before, q, after. split; [exact Hs|]. split.
    { eapply Forall_impl; [|exact Hb]. intros y Hy.
      unfold nameMatches in Hy. apply String.eqb_neq, Hy. }
    split; [apply String.eqb_eq, Hq|].
    split; [apply attemptOrder_preferred; assumption|].
    intros Huniq. apply Huniq; [|apply String.eqb_eq, Hq].
    eapply Permutation_in; [apply getAvailableProviders_perm|].
    rewrite Hs. apply in_elt.
Qed.

(** C4. When every candidate fails, [executeWithFallback] fails with one
    error whose message is built from, and contains, the message of the
    last failure; when no provider is available it fails with the message
    "No AI providers available" without calling anything. *)
Theorem exhaustion_reports_last_failure {T : Type}
        (operation : ProviderConfiguration W -> Async W T)
        (registry : list (ProviderConfiguration W))
        (preferredProvider : option string) (w : W) :
  (forall before final w1 w2 error,
      attemptOrder registry preferredProvider = before ++ [final] ->
      allFail operation before w = Some w1 ->
      operation final w1 = (Throws error, w2) ->
      exists log aggregate,
        executeWithFallback operation registry preferredProvider w
        = (Throws (mkError aggregate), w2, log) /\
        aggregate = "All AI providers failed. Last error: " ^^ message error /\
        includes aggregate (message error) = true /\
        successes log = [] /\
        invoked log = before ++ [final])
  /\ (filter passesAvailabilityFilter registry = [] ->
      executeWithFallback operation registry preferredProvider w
      = (Throws (mkError "No AI providers available"), w, [])).
Proof.
  split.
  - intros before final w1 w2 error Horder Hfail Hop.
    unfold executeWithFallback. rewrite Horder.
    destruct (attemptLoop_all_fail operation before final None w w1 w2 error
                Hfail Hop) as (log & Hrun & Hi & Hs & _).
    exists log, ("All AI providers failed. Last error: " ^^ message error).
    repeat split; trivial. apply includes_append.
  - intros Hnone. unfold executeWithFallback.
    pose proof (attemptOrder_perm registry preferredProvider) as Hperm.
    rewrite Hnone in Hperm. apply Permutation_sym, Permutation_nil in Hperm.
    rewrite Hperm. reflexivity.
Qed.

End OrchestratorFacts.

(** C1 on three providers: the first fails, the second answers, the third
    is not called. *)
Lemma first_success_wins_witness :
  AIService.attemptOrder Fixtures.registry123 None
  = [Fixtures.P1] ++ Fixtures.P2 :: [Fixtures.P3] /\
  exists log,
    AIService.executeWithFallback Fixtures.analyzeOperation
      Fixtures.registry123 None tt
    = (Returns ("answer of P2", "P2"), tt, log) /\
    AIService.invoked log = [Fixtures.P1; Fixtures.P2] /\
    AIService.successes log = [Fixtures.P2].
Proof.
  split; [reflexivity|].
  apply (first_success_wins Fixtures.analyzeOperation Fixtures.registry123 None
           [Fixtures.P1] [Fixtures.P3] Fixtures.P2 tt tt tt "answer of P2");
    reflexivity.
Defined.

(** C2 on three providers registered as P3, P1, P2, with the hints "auto"
    and "p3". *)
Lemma attempt_order_witness :
  (AIService.attemptOrder Fixtures.registry123 (Some "auto")
   = [Fixtures.P1; Fixtures.P2; Fixtures.P3] /\
   StronglySorted (ascending priority)
     (AIService.attemptOrder Fixtures.registry123 (Some "auto"))) /\
  AIService.attemptOrder Fixtures.registry123 (Some "p3")
  = [Fixtures.P3; Fixtures.P1; Fixtures.P2] /\
  exists before q after,
    AIService.getAvailableProviders Fixtures.registry123 = before ++ q :: after /\
    Forall (fun y => toLowerCase (name y) <> toLowerCase "p3") before /\
    toLowerCase (name q) = toLowerCase "p3" /\
    AIService.attemptOrder Fixtures.registry123 (Some "p3") = q :: before ++ after /\
    ((forall y,
        In y (filter AIService.passesAvailabilityFilter Fixtures.registry123) ->
        toLowerCase (name y) = toLowerCase "p3" -> y = Fixtures.P3) ->
     q = Fixtures.P3).
Proof.
  split; [|split; [reflexivity|]].
  - apply (proj1 (proj2 (attempt_order_is_sorted_permutation_with_preference
                           Fixtures.registry123 (Some "auto")))).
    right. right. reflexivity.
  - apply (proj2 (proj2 (attempt_order_is_sorted_permutation_with_preference
                           Fixtures.registry123 (Some "p3"))) "p3" Fixtures.P3).
    + reflexivity.
    + discriminate.
    + discriminate.
    + simpl. tauto.
    + reflexivity.
Defined.

(** C4 on two failing providers, and on an empty registry. *)
Lemma exhaustion_witness :
  (exists log aggregate,
     AIService.executeWithFallback Fixtures.analyzeOperation
       [Fixtures.D2; Fixtures.D1] None tt
     = (Throws (mkError aggregate), tt, log) /\
     aggregate = "All AI providers failed. Last error: socket hang up" /\
     includes aggregate "socket hang up" = true /\
     AIService.successes log = [] /\
     AIService.invoked log = [Fixtures.D1; Fixtures.D2]) /\
  AIService.executeWithFallback Fixtures.analyzeOperation [] None tt
  = (Throws (mkError "No AI providers available"), tt, []).
Proof.
  split.
  - apply (proj1 (exhaustion_reports_last_failure Fixtures.analyzeOperation
                    [Fixtures.D2; Fixtures.D1] None tt)
             [Fixtures.D1] Fixtures.D2 tt tt (mkError "socket hang up"));
      reflexivity.
  - apply (proj2 (exhaustion_reports_last_failure Fixtures.analyzeOperation
                    [] None tt)).
    reflexivity.
Defined.

(** ** Report generation *)

Section ReportFacts.
Import AIService.
Context {W : Type}.
Variable toISOStringNow : W -> string * W.

Lemma invoked_skipped (ps : list (ProviderConfiguration W)) : invoked (skipped ps) = ps.
Proof. induction ps as [|p ps IH]; simpl; rewrite ?IH; reflexivity. Qed.

Lemma successes_skipped (ps : list (ProviderConfiguration W)) : successes (skipped ps) = [].
Proof. induction ps as [|p ps IH]; simpl; rewrite ?IH; reflexivity. Qed.

Lemma failures_skipped (ps : list (ProviderConfiguration W)) :
  failures (skipped ps) = map (fun p => (p, unsupported)) ps.
Proof. induction ps as [|p ps IH]; simpl; rewrite ?IH; reflexivity. Qed.

(** The loop walks over the providers without a report method, leaving the
    world untouched, and stops at the first one whose method returns. *)
Lemma report_loop (items : list JsValue) (info : JsValue)
      (before : list (ProviderConfiguration W)) p2 after generate :
  Forall (fun p => Provider.generateReport (service p) = None) before ->
  Provider.generateReport (service p2) = Some generate ->
  forall lastError w w1 text,
  generate items info w = (Returns text, w1) ->
  attemptLoop (reportOperation items info) (before ++ p2 :: after) lastError w
  = (Returns (text, name p2), w1,
     skipped before ++ [Attempting p2; Successful p2]).
Proof.
  intros Hbefore Hp2.
  induction Hbefore as [|q before Hq _ IH]; intros lastError w w1 text Hgen.
  - simpl. unfold reportOperation. rewrite Hp2, Hgen. reflexivity.
  - rewrite <- app_comm_cons. cbn [attemptLoop].
    unfold reportOperation at 1. rewrite Hq.
    rewrite (IH _ w w1 text Hgen). reflexivity.
Qed.

(** C6. When the providers tried before [p2] have no report method and the
    method of [p2] returns, [generateReport] yields the text produced by
    [p2] under the name of [p2]; each provider before [p2] was called once
    and recorded as a failure with the message "Report generation not
    supported by this provider", the loop went on to the next candidate,
    and nothing was thrown to the caller. *)
Theorem report_falls_through_to_supporting_provider
        (registry : list (ProviderConfiguration W))
        (items : list JsValue) (info : JsValue)
        (before after : list (ProviderConfiguration W))
        (p2 : ProviderConfiguration W)
        (generate : list JsValue -> JsValue -> Async W string)
        (w w1 : W) (text : string) :
  attemptOrder registry None = before ++ p2 :: after ->
  Forall (fun p => Provider.generateReport (service p) = None) before ->
  Provider.generateReport (service p2) = Some generate ->
  generate items info w = (Returns text, w1) ->
  exists log,
    generateReport toISOStringNow registry items info w
    = (Returns {| analysis := text;
                  provider := name p2;
                  metadata := {| md_language := "multiple";
                                 md_analysisType := "report";
                                 md_timestamp := fst (toISOStringNow w1) |} |},
       snd (toISOStringNow w1), log) /\
    failures log = map (fun p => (p, unsupported)) before /\
    invoked log = before ++ [p2] /\
    successes log = [p2].
Proof.
  intros Horder Hbefore Hp2 Hgen.
  exists (skipped before ++ [Attempting p2; Successful p2]).
  split.
  - unfold generateReport, executeWithFallback. rewrite Horder.
    rewrite (report_loop items info before p2 after generate Hbefore Hp2
               None w w1 text Hgen).
    unfold envelope. destruct (toISOStringNow w1); reflexivity.
  - rewrite failures_app, invoked_app, successes_app.
    rewrite failures_skipped, invoked_skipped, successes_skipped.
    simpl. rewrite app_nil_r. auto.
Qed.

End ReportFacts.

(** C6 on a registry where only the second of three providers has a report
    method. *)
Lemma report_falls_through_witness :
  exists log,
    AIService.generateReport Fixtures.frozenClock Fixtures.reportRegistry
      [JString "prior analysis"] (JObject []) tt
    = (Returns {| AIService.analysis := "report of R2";
                  AIService.provider := "R2";
                  AIService.metadata :=
                    {| AIService.md_language := "multiple";
                       AIService.md_analysisType := "report";
                       AIService.md_timestamp := "2025-01-01T00:00:00.000Z" |} |},
       tt, log) /\
    AIService.failures log = [(Fixtures.R1, AIService.unsupported)] /\
    AIService.invoked log = [Fixtures.R1; Fixtures.R2] /\
    AIService.successes log = [Fixtures.R2].
Proof.
  apply (report_falls_through_to_supporting_provider Fixtures.frozenClock
           Fixtures.reportRegistry [JString "prior analysis"] (JObject [])
           [Fixtures.R1] [Fixtures.R3] Fixtures.R2
           (fun _ _ w => (Returns "report of R2", w)) tt tt "report of R2").
  - reflexivity.
  - repeat constructor.
  - reflexivity.
  - reflexivity.
Defined.

(** ** The request handlers *)

Section HandlerFacts.
Import Validation ResponseUtils.
Context {W : Type}.
Variable toISOStringNow : W -> string * W.
Variable registry : list (ProviderConfiguration W).

Lemma validateCode_rejects (code : JsValue) :
  code = JUndefined \/ (forall s, code <> JString s)
  \/ (exists s, code = JString s /\ trim s = "") ->
  validateCode code = Some "Code is required and must be a non-empty string".
Proof.
  intros [->|[Hns|(s & -> & Htrim)]]; [reflexivity| |].
  - destruct code as [| |b|n|s|items|fields]; try reflexivity.
    + unfold validateCode. rewrite orb_true_r. reflexivity.
    + unfold validateCode. rewrite orb_true_r. reflexivity.
    + exfalso. apply (Hns s). reflexivity.
  - unfold validateCode. rewrite Htrim. rewrite orb_true_r. reflexivity.
Qed.

(** C8. A request to analyze, explain or improve whose [code] is missing,
    not a string, or blank once trimmed is answered with status 400 and
    [{success: false, error: "Validation Error", message: "Code is required
    and must be a non-empty string"}]; the world is untouched and the log
    of the orchestrator is empty: no provider was called. *)
Theorem invalid_code_is_rejected_before_orchestration
        (reqBody : list (string * JsValue)) (w : W) :
  getField reqBody "code" = JUndefined
  \/ (forall s, getField reqBody "code" <> JString s)
  \/ (exists s, getField reqBody "code" = JString s /\ trim s = "") ->
  Controller.analyzeCode toISOStringNow registry reqBody w = (Controller.codeRejection, w, [])
  /\ Controller.explainCode toISOStringNow registry reqBody w = (Controller.codeRejection, w, [])
  /\ Controller.suggestImprovements toISOStringNow registry reqBody w
     = (Controller.codeRejection, w, []).
Proof.
  intros H. apply validateCode_rejects in H.
  unfold Controller.analyzeCode, Controller.explainCode,
    Controller.suggestImprovements.
  rewrite H. repeat split.
Qed.

(** C7, as amended.  A report request answered with status 200 carries
    [{success: true, data: {report, metadata}}]: [report] is the envelope
    [{analysis, provider, metadata: {language: "multiple", analysisType:
    "report", timestamp}}] with the text and the name returned by the
    orchestrator and the clock read after it returned; the outer
    [metadata] holds [projectInfo], [generatedAt] and [resultsCount]. *)
Theorem report_payload_nests_the_envelope
        (reqBody : list (string * JsValue)) (w w' : W)
        (response : Response) (log : list (AIService.Event W)) :
  Controller.generateReport toISOStringNow registry reqBody w = (response, w', log) ->
  statusCode response = 200 ->
  exists items text providerName w1,
    getField reqBody "analysisResults" = JArray items /\
    AIService.executeWithFallback
      (AIService.reportOperation items
         (Controller.withDefault (getField reqBody "projectInfo") (JObject [])))
      registry None w
    = (Returns (text, providerName), w1, log) /\
    w' = snd (toISOStringNow (snd (toISOStringNow w1))) /\
    body response
    = JObject
        [ ("success", JBool true);
          ("data",
           JObject
             [ ("report",
                JObject
                  [ ("analysis", JString text);
                    ("provider", JString providerName);
                    ("metadata",
                     JObject
                       [ ("language", JString "multiple");
                         ("analysisType", JString "report");
                         ("timestamp", JString (fst (toISOStringNow w1))) ]) ]);
               ("metadata",
                JObject
                  [ ("projectInfo",
                     Controller.withDefault (getField reqBody "projectInfo")
                                            (JObject []));
                    ("generatedAt",
                     JString (fst (toISOStringNow (snd (toISOStringNow w1)))));
                    ("resultsCount", JNumber (Z.of_nat (List.length items))) ]) ]) ].
Proof.
  unfold Controller.generateReport.
  destruct (getField reqBody "analysisResults") as [| | | | |items|] eqn:Hresults;
    try (intros Hrun Hstatus; injection Hrun as <- _ _; discriminate Hstatus).
  destruct (negb (truthy (JArray items)) || (Z.of_nat (List.length items) =? 0));
    [intros Hrun Hstatus; injection Hrun as <- _ _; discriminate Hstatus|].
  unfold AIService.generateReport, AIService.envelope.
  destruct (AIService.executeWithFallback _ registry None w)
    as [[[[text providerName]|error] w1] log1] eqn:Hexec.
  - destruct (toISOStringNow w1) as [timestamp w2] eqn:Hclock1.
    destruct (toISOStringNow w2) as [generatedAt w3] eqn:Hclock2.
    intros Hrun _. injection Hrun as <- <- <-.
    exists items, text, providerName, w1.
    rewrite Hclock1. simpl. rewrite Hclock2. auto.
  - intros Hrun Hstatus. injection Hrun as <- _ _. discriminate Hstatus.
Qed.

End HandlerFacts.

(** C8 on a body without [code], on a numeric [code] and on a blank one. *)
Lemma invalid_code_witness :
  Controller.analyzeCode Fixtures.frozenClock Fixtures.registry123
    [("language", JString "python")] tt = (Controller.codeRejection, tt, [])
  /\ Controller.explainCode Fixtures.frozenClock Fixtures.registry123
       [("code", JNumber 42)] tt = (Controller.codeRejection, tt, [])
  /\ Controller.suggestImprovements Fixtures.frozenClock Fixtures.registry123
       [("code", JString "   ")] tt = (Controller.codeRejection, tt, []).
Proof.
  split; [|split].
  - apply (invalid_code_is_rejected_before_orchestration Fixtures.frozenClock
             Fixtures.registry123 [("language", JString "python")] tt).
    left. reflexivity.
  - apply (invalid_code_is_rejected_before_orchestration Fixtures.frozenClock
             Fixtures.registry123 [("code", JNumber 42)] tt).
    right. left. discriminate.
  - apply (invalid_code_is_rejected_before_orchestration Fixtures.frozenClock
             Fixtures.registry123 [("code", JString "   ")] tt).
    right. right. exists "   ". split; reflexivity.
Defined.

(** C7 as stated fails: the data of a successful report response has no
    [analysis], [provider] or [metadata.language]; the envelope sits one
    level down, under [report]. *)
Lemma report_payload_counterexample :
  let response :=
    fst (fst (Controller.generateReport Fixtures.frozenClock
                Fixtures.reportRegistry Fixtures.reportBody tt)) in
  ResponseUtils.statusCode response = 200 /\
  prop (ResponseUtils.body response) "success" = JBool true /\
  Controller.hasReportResultShape (prop (ResponseUtils.body response) "data") = false /\
  prop (prop (ResponseUtils.body response) "data") "analysis" = JUndefined /\
  prop (prop (prop (ResponseUtils.body response) "data") "metadata") "language"
  = JUndefined /\
  Controller.hasReportResultShape
    (prop (prop (ResponseUtils.body response) "data") "report") = true.
Proof. vm_compute. repeat split. Qed.

(** C7 as amended, on the same request. *)
Lemma report_payload_witness :
  exists items text providerName w1,
    getField Fixtures.reportBody "analysisResults" = JArray items /\
    AIService.executeWithFallback
      (AIService.reportOperation items
         (Controller.withDefault (getField Fixtures.reportBody "projectInfo")
                                 (JObject [])))
      Fixtures.reportRegistry None tt
    = (Returns (text, providerName), w1,
       snd (Controller.generateReport Fixtures.frozenClock
              Fixtures.reportRegistry Fixtures.reportBody tt)) /\
    text = "report of R2" /\ providerName = "R2".
Proof.
  destruct (report_payload_nests_the_envelope Fixtures.frozenClock
              Fixtures.reportRegistry Fixtures.reportBody tt tt
              (fst (fst (Controller.generateReport Fixtures.frozenClock
                           Fixtures.reportRegistry Fixtures.reportBody tt)))
              (snd (Controller.generateReport Fixtures.frozenClock
                      Fixtures.reportRegistry Fixtures.reportBody tt))
              eq_refl eq_refl)
    as (items & text & providerName & w1 & Hitems & Hexec & _ & Hbody).
  exists items, text, providerName, w1.
  split; [exact Hitems|]. split; [exact Hexec|].
  vm_compute in Hbody. injection Hbody as Htext Hname.
  split; congruence.
Defined.

(** ** Retry with back-off *)

Lemma attemptsUpTo_snoc (n : Z) :
  1 <= n -> GeminiService.attemptsUpTo n = GeminiService.attemptsUpTo (n - 1) ++ [n].
Proof.
  intros Hn. unfold GeminiService.attemptsUpTo.
  replace (Z.to_nat n) with (Z.to_nat (n - 1) + 1)%nat by lia.
  rewrite seq_app, map_app. simpl. f_equal. f_equal. lia.
Qed.

Lemma attemptsUpTo_nonpositive (n : Z) : n <= 0 -> GeminiService.attemptsUpTo n = [].
Proof.
  intros Hn. unfold GeminiService.attemptsUpTo.
  replace (Z.to_nat n) with 0%nat by lia. reflexivity.
Qed.

Lemma attemptsUpTo_below (n k : Z) : In k (GeminiService.attemptsUpTo n) -> 1 <= k <= n.
Proof.
  unfold GeminiService.attemptsUpTo. intros Hin.
  apply in_map_iff in Hin. destruct Hin as (i & <- & Hi).
  apply in_seq in Hi. lia.
Qed.

Section RetryFacts.
Import GeminiService.
Context {W T : Type}.
Variable sleep : Z -> W -> W.
Variable operation : Async W T.
Variable maxRetries baseDelay : Z.

Lemma originates_later c log k r delay :
  originates operation c log ->
  originates operation c (Called k r :: Slept delay :: log).
Proof.
  destruct c as [v|e|]; simpl; [| |tauto];
    intros (k' & w0 & w1 & Hop & Hin); exists k', w0, w1; auto.
Qed.

(** A loop whose last value of [attempt] is [maxRetries] leaves through a
    [return] or through the [throw error] of the [catch] block. *)
Lemma retryLoop_originates (earlier : list Z) :
  forall w,
  originates operation
    (fst (fst (retryLoop sleep operation maxRetries baseDelay
                 (earlier ++ [maxRetries]) w)))
    (snd (retryLoop sleep operation maxRetries baseDelay
            (earlier ++ [maxRetries]) w)).
Proof.
  induction earlier as [|attempt earlier IH]; intros w.
  - simpl. destruct (operation w) as [[value|error] w1] eqn:Hop.
    + simpl. exists maxRetries, w, w1. auto.
    + rewrite Z.eqb_refl. simpl. exists maxRetries, w, w1. auto.
  - rewrite <- app_comm_cons. cbn [retryLoop].
    destruct (operation w) as [[value|error] w1] eqn:Hop.
    + simpl. exists attempt, w, w1. auto.
    + destruct ((attempt =? maxRetries) || negb (isRateLimitError error)).
      * simpl. exists attempt, w, w1. auto.
      * specialize (IH (sleep (baseDelay * 2 ^ (attempt - 1)) w1)).
        destruct (retryLoop sleep operation maxRetries baseDelay
                    (earlier ++ [maxRetries])
                    (sleep (baseDelay * 2 ^ (attempt - 1)) w1))
          as [[c w2] log].
        simpl in *. apply originates_later, IH.
Qed.

(** C9. With [maxRetries >= 1] the [throw] after the loop is never
    reached: [retryWithBackoff] returns a value that a call of the
    operation returned, or rethrows an error that a call of the operation
    threw. *)
Theorem trailing_throw_is_unreachable (w : W) :
  1 <= maxRetries ->
  fst (fst (retryWithBackoff sleep operation maxRetries baseDelay w))
  <> MaxRetriesExceeded /\
  originates operation
    (fst (fst (retryWithBackoff sleep operation maxRetries baseDelay w)))
    (snd (retryWithBackoff sleep operation maxRetries baseDelay w)).
Proof.
  intros Hmax. unfold retryWithBackoff.
  rewrite (attemptsUpTo_snoc maxRetries Hmax).
  pose proof (retryLoop_originates (attemptsUpTo (maxRetries - 1)) w) as H.
  split; [|exact H].
  intros E. rewrite E in H. exact H.
Qed.

(** Without a first attempt the loop body never runs and the trailing
    [throw] is what the caller gets. *)
Lemma trailing_throw_without_attempts (w : W) :
  maxRetries <= 0 ->
  retryWithBackoff sleep operation maxRetries baseDelay w
  = (MaxRetriesExceeded, w, []).
Proof.
  intros Hmax. unfold retryWithBackoff.
  rewrite attemptsUpTo_nonpositive by exact Hmax. reflexivity.
Qed.

(** An error that is not a rate-limit error leaves the loop at once. *)
Lemma retryLoop_aborts attempt rest w error w1 :
  operation w = (Throws error, w1) ->
  isRateLimitError error = false ->
  retryLoop sleep operation maxRetries baseDelay (attempt :: rest) w
  = (Rethrown error, w1, [Called attempt (Throws error)]).
Proof.
  intros Hop Hrate. simpl. rewrite Hop, Hrate, orb_true_r. reflexivity.
Qed.

(** Three attempts, the first two rate limited: two sleeps, of 1000 ms and
    2000 ms, and the third error rethrown. *)
Lemma retry_three_attempts (w : W) e1 e2 e3 w1 w2 w3 :
  operation w = (Throws e1, w1) -> isRateLimitError e1 = true ->
  operation (sleep 1000 w1) = (Throws e2, w2) -> isRateLimitError e2 = true ->
  operation (sleep 2000 w2) = (Throws e3, w3) ->
  retryWithBackoff sleep operation 3 1000 w
  = (Rethrown e3, w3,
     [ Called 1 (Throws e1); Slept 1000;
       Called 2 (Throws e2); Slept 2000;
       Called 3 (Throws e3) ]).
Proof.
  intros H1 R1 H2 R2 H3. unfold retryWithBackoff. simpl.
  rewrite H1, R1. simpl. rewrite H2, R2. simpl. rewrite H3. reflexivity.
Qed.

(** Under rate-limit errors only, every value of [attempt] is used, and
    the sleep after the failed attempt [k] lasts [baseDelay * 2^(k-1)]. *)
Lemma retryLoop_rate_limited (earlier : list Z) :
  (forall w0, exists error w1,
      operation w0 = (Throws error, w1) /\ isRateLimitError error = true) ->
  Forall (fun k => k <> maxRetries) earlier ->
  forall w,
  (exists error,
      fst (fst (retryLoop sleep operation maxRetries baseDelay
                  (earlier ++ [maxRetries]) w)) = Rethrown error /\
      isRateLimitError error = true) /\
  map fst (calls (snd (retryLoop sleep operation maxRetries baseDelay
                         (earlier ++ [maxRetries]) w)))
  = earlier ++ [maxRetries] /\
  delays (snd (retryLoop sleep operation maxRetries baseDelay
                 (earlier ++ [maxRetries]) w))
  = map (fun k => baseDelay * 2 ^ (k - 1)) earlier.
Proof.
  intros Hop Hearlier.
  induction Hearlier as [|attempt earlier Hne _ IH]; intros w.
  - simpl. destruct (Hop w) as (error & w1 & -> & Hrate).
    rewrite Z.eqb_refl. simpl. eauto.
  - rewrite <- app_comm_cons. cbn [retryLoop].
    destruct (Hop w) as (error & w1 & -> & Hrate).
    apply Z.eqb_neq in Hne. rewrite Hne, Hrate. simpl orb. cbv iota.
    specialize (IH (sleep (baseDelay * 2 ^ (attempt - 1)) w1)).
    destruct (retryLoop sleep operation maxRetries baseDelay
                (earlier ++ [maxRetries])
                (sleep (baseDelay * 2 ^ (attempt - 1)) w1))
      as [[c w2] log].
    simpl in *. destruct IH as (Hc & Hcalls & Hdelays).
    rewrite Hcalls, Hdelays. auto.
Qed.

End RetryFacts.

Section BackoffFacts.
Import GeminiService.
Context {W T : Type}.
Variable sleep : Z -> W -> W.
Variable operation : Async W T.

(** C5, as amended.  With three attempts and a base delay of 1000 ms:
    under rate-limit errors the operation is called exactly three times,
    the sleep after the failed attempt [k] (that is, before attempt
    [k + 1]) lasts [1000 * 2^(k-1)] ms, so 1000 ms then 2000 ms, and the
    third error is rethrown once; an error that is not a rate-limit error
    is rethrown at once, without a sleep or a further call; and the
    [analyzeCode] of the adapter, which wraps its call of the model in
    this loop, then fails once, with a single error. *)
Theorem backoff_doubles_after_each_failed_attempt (w : W) :
  (forall e1 e2 e3 w1 w2 w3,
      operation w = (Throws e1, w1) -> isRateLimitError e1 = true ->
      operation (sleep 1000 w1) = (Throws e2, w2) -> isRateLimitError e2 = true ->
      operation (sleep 2000 w2) = (Throws e3, w3) ->
      retryWithBackoff sleep operation 3 1000 w
      = (Rethrown e3, w3,
         [ Called 1 (Throws e1); Slept (1000 * 2 ^ (1 - 1));
           Called 2 (Throws e2); Slept (1000 * 2 ^ (2 - 1));
           Called 3 (Throws e3) ]))
  /\ (forall attempt rest w0 error w1,
         operation w0 = (Throws error, w1) ->
         isRateLimitError error = false ->
         retryLoop sleep operation 3 1000 (attempt :: rest) w0
         = (Rethrown error, w1, [Called attempt (Throws error)]))
  /\ (forall (R : Type) (generateContent : string -> Async W R)
             (responseText : R -> Async W string)
             (buildAnalysisPrompt : string -> string -> string -> string)
             (code language analysisType : string) e1 e2 e3 w1 w2 w3,
         generateContent (buildAnalysisPrompt code language analysisType) w
         = (Throws e1, w1) ->
         isRateLimitError e1 = true ->
         generateContent (buildAnalysisPrompt code language analysisType)
                         (sleep 1000 w1)
         = (Throws e2, w2) ->
         isRateLimitError e2 = true ->
         generateContent (buildAnalysisPrompt code language analysisType)
                         (sleep 2000 w2)
         = (Throws e3, w3) ->
         analyzeCode W sleep R generateContent responseText buildAnalysisPrompt
                     code language analysisType w
         = (Throws (mkError
              (if includes (message e3) "429"
               then "API quota exceeded. Please wait a moment and try again, or check your Gemini API billing."
               else "Code analysis failed: " ^^ message e3)), w3)).
Proof.
  split; [|split].
  - intros e1 e2 e3 w1 w2 w3 H1 R1 H2 R2 H3.
    exact (retry_three_attempts sleep operation w e1 e2 e3 w1 w2 w3
             H1 R1 H2 R2 H3).
  - intros attempt rest w0 error w1 Hop Hrate.
    apply retryLoop_aborts; assumption.
  - intros R generateContent responseText buildAnalysisPrompt
           code language analysisType e1 e2 e3 w1 w2 w3 H1 R1 H2 R2 H3.
    unfold analyzeCode.
    rewrite (retry_three_attempts sleep _ w e1 e2 e3 w1 w2 w3 H1 R1 H2 R2 H3).
    simpl. destruct (includes (message e3) "429"); reflexivity.
Qed.

(** The same law for any number of attempts and any base delay. *)
Lemma backoff_schedule (maxRetries baseDelay : Z) (w : W) :
  1 <= maxRetries ->
  (forall w0, exists error w1,
      operation w0 = (Throws error, w1) /\ isRateLimitError error = true) ->
  (exists error,
      fst (fst (retryWithBackoff sleep operation maxRetries baseDelay w))
      = Rethrown error /\ isRateLimitError error = true) /\
  map fst (calls (snd (retryWithBackoff sleep operation maxRetries baseDelay w)))
  = attemptsUpTo maxRetries /\
  delays (snd (retryWithBackoff sleep operation maxRetries baseDelay w))
  = map (fun k => baseDelay * 2 ^ (k - 1)) (attemptsUpTo (maxRetries - 1)).
Proof.
  intros Hmax Hop. unfold retryWithBackoff.
  rewrite (attemptsUpTo_snoc maxRetries Hmax).
  apply retryLoop_rate_limited; [exact Hop|].
  apply Forall_forall. intros k Hk. apply attemptsUpTo_below in Hk. lia.
Qed.

End BackoffFacts.

(** C5 as amended, on an operation that is rate limited on every call, on
    one that fails for another reason, and on the adapter over a model
    that is rate limited on every call. *)
Lemma backoff_witness :
  GeminiService.retryWithBackoff Fixtures.noSleep Fixtures.alwaysRateLimited
    3 1000 0%nat
  = (GeminiService.Rethrown (mkError "429 Too Many Requests"), 3%nat,
     [ GeminiService.Called 1 (Throws (mkError "429 Too Many Requests"));
       GeminiService.Slept 1000;
       GeminiService.Called 2 (Throws (mkError "429 Too Many Requests"));
       GeminiService.Slept 2000;
       GeminiService.Called 3 (Throws (mkError "429 Too Many Requests")) ])
  /\ GeminiService.retryLoop Fixtures.noSleep Fixtures.brokenPipe 3 1000
       [1; 2; 3] 0%nat
     = (GeminiService.Rethrown (mkError "write EPIPE"), 1%nat,
        [GeminiService.Called 1 (Throws (mkError "write EPIPE"))])
  /\ GeminiService.analyzeCode Fixtures.Calls Fixtures.noSleep string
       (fun _ => Fixtures.alwaysRateLimited) (fun text w => (Returns text, w))
       (fun code _ _ => code) "console.log(1)" "javascript" "general" 0%nat
     = (Throws (mkError "API quota exceeded. Please wait a moment and try again, or check your Gemini API billing."),
        3%nat).
Proof.
  split; [|split].
  - apply (proj1 (backoff_doubles_after_each_failed_attempt Fixtures.noSleep
                    Fixtures.alwaysRateLimited 0%nat)
             (mkError "429 Too Many Requests") (mkError "429 Too Many Requests")
             (mkError "429 Too Many Requests") 1%nat 2%nat 3%nat);
      reflexivity.
  - apply (proj1 (proj2 (backoff_doubles_after_each_failed_attempt
                           Fixtures.noSleep Fixtures.brokenPipe 0%nat))
             1 [2; 3] 0%nat (mkError "write EPIPE") 1%nat);
      reflexivity.
  - apply (proj2 (proj2 (backoff_doubles_after_each_failed_attempt
                           Fixtures.noSleep Fixtures.alwaysRateLimited 0%nat))
             string (fun _ => Fixtures.alwaysRateLimited)
             (fun text w => (Returns text, w)) (fun code _ _ => code)
             "console.log(1)" "javascript" "general"
             (mkError "429 Too Many Requests") (mkError "429 Too Many Requests")
             (mkError "429 Too Many Requests") 1%nat 2%nat 3%nat);
      reflexivity.
Defined.

(** C5 as stated fails: under rate-limit errors nothing is slept before
    attempt 1, and the sleeps before attempts 2 and 3 last 1000 ms and
    2000 ms, not [1000 * 2^(2-1)] and [1000 * 2^(3-1)]. *)
Lemma backoff_delay_counterexample :
  let log := snd (GeminiService.retryWithBackoff Fixtures.noSleep
                    Fixtures.alwaysRateLimited 3 1000 0%nat) in
  map fst (GeminiService.calls log) = [1; 2; 3] /\
  GeminiService.delayBefore 1 log = None /\
  GeminiService.delayBefore 2 log = Some 1000 /\
  GeminiService.delayBefore 2 log <> Some (1000 * 2 ^ (2 - 1)) /\
  GeminiService.delayBefore 3 log = Some 2000 /\
  GeminiService.delayBefore 3 log <> Some (1000 * 2 ^ (3 - 1)).
Proof. vm_compute. repeat split; discriminate. Qed.

(** C9 on an operation that is rate limited on every call. *)
Lemma trailing_throw_witness :
  1 <= 3 /\
  fst (fst (GeminiService.retryWithBackoff Fixtures.noSleep
              Fixtures.alwaysRateLimited 3 1000 0%nat))
  <> GeminiService.MaxRetriesExceeded /\
  GeminiService.originates Fixtures.alwaysRateLimited
    (fst (fst (GeminiService.retryWithBackoff Fixtures.noSleep
                 Fixtures.alwaysRateLimited 3 1000 0%nat)))
    (snd (GeminiService.retryWithBackoff Fixtures.noSleep
            Fixtures.alwaysRateLimited 3 1000 0%nat)).
Proof.
  split; [lia|].
  apply (trailing_throw_is_unreachable Fixtures.noSleep
           Fixtures.alwaysRateLimited 3 1000 0%nat).
  lia.
Defined.

(** The three rate-limited calls of the model inside the Gemini adapter
    reach the orchestrator as one failed attempt. *)
Example gemini_backoff_is_one_failed_attempt :
  match Backend.aiService (Fixtures.rejecting "429 quota" "" "Unauthorized")
          Fixtures.envGeminiOnly with
  | Returns registry =>
      let '(_, calls, log) :=
        AIService.analyzeCode Fixtures.frozenCalls registry Fixtures.request 0%nat in
      calls = 4%nat /\
      map (fun f => name (fst f)) (AIService.failures log)
      = ["Gemini"; "HuggingFace"]
  | Throws _ => False
  end.
Proof. vm_compute. split; reflexivity. Qed.

(** ** The Gemini adapter and the registry *)

Section GeminiFacts.
Context {W : Type}.
Variable P : Backend.Platform W.
Variable env : Env.

Lemma orEmpty_truthy (v : option string) :
  truthyString (orEmpty v) = true ->
  exists key, v = Some key /\ key <> "".
Proof.
  destruct v as [key|]; simpl; [|discriminate].
  destruct (truthyString key) eqn:E; [|discriminate].
  intros _. exists key. split; [reflexivity|].
  intros ->. discriminate E.
Qed.

(** C10. A Gemini adapter that was constructed holds a non-empty key and
    its [isAvailable()] returns [true] on every call; without a key the
    constructor throws "Gemini API key is required", so evaluating
    geminiService.ts, and with it aiService.ts, fails: the adapter never
    sits in the registry as an unavailable provider. *)
Theorem gemini_adapter_is_never_unavailable :
  (forall gemini,
      Backend.geminiService P env = Returns gemini ->
      (exists key, GEMINI_API_KEY env = Some key /\ key <> "") /\
      gemini_apiKey (config env) <> "" /\
      forall call, isAvailable gemini call = true)
  /\ (GEMINI_API_KEY env = None \/ GEMINI_API_KEY env = Some "" ->
      Backend.geminiService P env = Throws (mkError "Gemini API key is required") /\
      Backend.aiService P env = Throws (mkError "Gemini API key is required"))
  /\ (forall registry gemini,
         Backend.aiService P env = Returns registry ->
         nth_error registry 0 = Some gemini ->
         name gemini = "Gemini" /\
         AIService.passesAvailabilityFilter gemini = true /\
         isAvailable (service gemini) tt = true).
Proof.
  split; [|split].
  - intros gemini. unfold Backend.geminiService, GeminiService.construct.
    destruct (truthyString (gemini_apiKey (config env))) eqn:Hkey; simpl;
      [|discriminate].
    intros Hg. injection Hg as <-. split; [|split].
    + apply orEmpty_truthy, Hkey.
    + intros E. simpl in E, Hkey. rewrite E in Hkey. discriminate Hkey.
    + intros call. exact Hkey.
  - intros Hmissing.
    assert (Hg : Backend.geminiService P env
                 = Throws (mkError "Gemini API key is required")).
    { unfold Backend.geminiService, GeminiService.construct, config.
      destruct Hmissing as [-> | ->]; reflexivity. }
    split; [exact Hg|]. unfold Backend.aiService. rewrite Hg. reflexivity.
  - intros registry gemini. unfold Backend.aiService.
    destruct (Backend.geminiService P env) as [g|] eqn:Hg; [|discriminate].
    intros Hr. injection Hr as <-. simpl. intros Hn. injection Hn as <-.
    repeat split.
    unfold Backend.geminiService, GeminiService.construct in Hg.
    destruct (truthyString (gemini_apiKey (config env))) eqn:Hkey; simpl in Hg;
      [|discriminate].
    injection Hg as <-. exact Hkey.
Qed.

End GeminiFacts.

(** C10 with and without a Gemini key. *)
Lemma gemini_adapter_witness :
  (exists gemini,
      Backend.geminiService Fixtures.outage Fixtures.envGeminiOnly = Returns gemini /\
      forall call, isAvailable gemini call = true)
  /\ Backend.aiService Fixtures.outage Fixtures.envWithoutGemini
     = Throws (mkError "Gemini API key is required")
  /\ (exists registry gemini,
         Backend.aiService Fixtures.outage Fixtures.envGeminiOnly = Returns registry /\
         nth_error registry 0 = Some gemini /\
         AIService.passesAvailabilityFilter gemini = true /\
         isAvailable (service gemini) tt = true).
Proof.
  split; [|split].
  - eexists. split; [reflexivity|].
    apply (proj1 (gemini_adapter_is_never_unavailable Fixtures.outage
                    Fixtures.envGeminiOnly) _ eq_refl).
  - apply (proj1 (proj2 (gemini_adapter_is_never_unavailable Fixtures.outage
                           Fixtures.envWithoutGemini))).
    left. reflexivity.
  - eexists. eexists. split; [reflexivity|]. split; [reflexivity|].
    apply (proj2 (proj2 (gemini_adapter_is_never_unavailable Fixtures.outage
                           Fixtures.envGeminiOnly)) _ _ eq_refl eq_refl).
Defined.

(** C3 on the registry of the backend.  With keys for Gemini and Groq but
    none for Hugging Face, [isAvailable()] of the Hugging Face adapter
    returns [false]; its registry entry has no [checkAvailable], so it
    stays in the attempt order: when the other two fail it is called, it
    is recorded as a failure, and its message ends up in the aggregate
    error. *)
Theorem huggingface_without_key_is_still_attempted :
  exists registry huggingFace log,
    Backend.aiService Fixtures.outage Fixtures.envWithoutHuggingFace
    = Returns registry /\
    nth_error registry 2 = Some huggingFace /\
    name huggingFace = "HuggingFace" /\
    isAvailable (service huggingFace) tt = false /\
    checkAvailable huggingFace = None /\
    AIService.analyzeCode (Backend.toISOStringNow Fixtures.outage) registry
      Fixtures.request 0%nat
    = (Throws (mkError "All AI providers failed. Last error: Hugging Face analysis failed: Hugging Face API error: Unauthorized"),
       3%nat, log) /\
    map name (AIService.invoked log) = ["Gemini"; "Groq"; "HuggingFace"] /\
    In huggingFace (AIService.invoked log) /\
    In (huggingFace,
        "Hugging Face analysis failed: Hugging Face API error: Unauthorized")
       (AIService.failures log).
Proof.
  eexists. eexists. eexists.
  split; [reflexivity|].
  split; [reflexivity|].
  split; [reflexivity|].
  split; [reflexivity|].
  split; [reflexivity|].
  split; [vm_compute; reflexivity|].
  split; [reflexivity|].
  split; simpl; auto.
Qed.

(** The sibling entry: without a key for Groq, the [checkAvailable] of its
    entry keeps it out of the attempt order. *)
Example groq_without_key_is_filtered_out :
  match Backend.aiService Fixtures.outage Fixtures.envGeminiOnly with
  | Returns registry =>
      map name (AIService.attemptOrder registry (Some "groq"))
      = ["Gemini"; "HuggingFace"]
  | Throws _ => False
  end.
Proof. reflexivity. Qed.

(* ===================================================================== *)
(** * Further properties of the backend *)
(* ===================================================================== *)

(** ** Validation of request fields *)

Section ValidationFacts.
Import Validation.

Lemma strLength_zero (s : string) : (strLength s =? 0) = true <-> s = "".
Proof.
  unfold strLength. destruct s; simpl; split; intros H;
    try reflexivity; try discriminate.
Qed.

Lemma trim_empty : trim "" = "".
Proof. reflexivity. Qed.

Lemma validateCode_string (s : string) :
  validateCode (JString s)
  = if (trim s =? "")%string
    then Some "Code is required and must be a non-empty string"
    else if strLength s >? 2000000
         then Some "Code is too large. Maximum size is 2MB"
         else None.
Proof.
  unfold validateCode. simpl truthy. unfold truthyString.
  destruct (String.eqb_spec s "") as [->|Hne]; [reflexivity|].
  simpl negb. simpl orb.
  destruct (String.eqb_spec (trim s) "") as [E|E].
  - rewrite E. reflexivity.
  - destruct (strLength (trim s) =? 0) eqn:Hz; [|reflexivity].
    apply strLength_zero in Hz. contradiction.
Qed.

(** X1. [validateCode] accepts exactly the strings that are not blank and
    whose length, before trimming, is at most 2000000; it answers "Code is
    too large. Maximum size is 2MB" exactly for the longer ones that are
    not blank, and its first message for everything else. *)
Theorem validateCode_accepts_exactly (code : JsValue) :
  (validateCode code = None <->
   exists s, code = JString s /\ trim s <> "" /\ strLength s <= 2000000)
  /\ (validateCode code = Some "Code is too large. Maximum size is 2MB" <->
      exists s, code = JString s /\ trim s <> "" /\ strLength s > 2000000)
  /\ (validateCode code = Some "Code is required and must be a non-empty string" <->
      forall s, code = JString s -> trim s = "").
Proof.
  assert (Hcases : (exists s, code = JString s) \/ (forall s, code <> JString s)).
  { destruct code as [| |b|n|s|items|fields];
      try (right; intros s0; discriminate). left. exists s. reflexivity. }
  destruct Hcases as [(s & ->)|Hother].
  - rewrite validateCode_string.
    destruct (String.eqb_spec (trim s) "") as [E|E].
    + split; [|split]; split; try discriminate.
      * intros (s' & Hs & Ht & _). injection Hs as <-. contradiction.
      * intros (s' & Hs & Ht & _). injection Hs as <-. contradiction.
      * intros _ s' Hs. injection Hs as <-. exact E.
      * reflexivity.
    + destruct (strLength s >? 2000000) eqn:Hbig.
      * apply Z.gtb_lt in Hbig. split; [|split]; split; try discriminate.
        -- intros (s' & Hs & _ & Hlen). injection Hs as <-. lia.
        -- intros _. exists s. repeat split; trivial. lia.
        -- reflexivity.
        -- intros H. exfalso. apply E, H. reflexivity.
      * assert (strLength s <= 2000000)
          by (destruct (Z.gtb_spec (strLength s) 2000000); [discriminate | lia]).
        split; [|split]; split; try discriminate.
        -- intros _. exists s. repeat split; trivial.
        -- reflexivity.
        -- intros (s' & Hs & _ & Hlen). injection Hs as <-. lia.
        -- intros H'. exfalso. apply E, H'. reflexivity.
  - rewrite (validateCode_rejects code (or_intror (or_introl Hother))).
    split; [|split]; split; try discriminate.
    + intros (s & Hs & _). exfalso. apply (Hother s Hs).
    + intros (s & Hs & _). exfalso. apply (Hother s Hs).
    + intros _ s Hs. exfalso. apply (Hother s Hs).
    + reflexivity.
Qed.

Lemma arrayIncludes_In (arr : list string) (s : string) :
  arrayIncludes arr s = true <-> In s arr.
Proof.
  unfold arrayIncludes. rewrite existsb_exists. split.
  - intros (x & Hin & Heq). apply String.eqb_eq in Heq. subst. exact Hin.
  - intros Hin. exists s. split; [exact Hin | apply String.eqb_refl].
Qed.

(** X2. [validateLanguage] always answers with a member of its allow-list;
    a string that is a supported language up to case is answered in lower
    case; validating twice changes nothing. *)
Theorem validateLanguage_stays_in_allow_list (language : JsValue) :
  In (validateLanguage language) supportedLanguages
  /\ (forall s, language = JString s ->
                In (toLowerCase s) supportedLanguages ->
                validateLanguage language = toLowerCase s)
  /\ validateLanguage (JString (validateLanguage language))
     = validateLanguage language.
Proof.
  assert (Hin : In (validateLanguage language) supportedLanguages).
  { destruct language as [| |b|n|s|items|fields]; try (simpl; tauto).
    unfold validateLanguage.
    destruct (negb (truthyString s)); [simpl; tauto|].
    destruct (arrayIncludes supportedLanguages (toLowerCase s)) eqn:E;
      [apply arrayIncludes_In, E | simpl; tauto]. }
  split; [exact Hin|]. split.
  - intros s -> Hs. unfold validateLanguage.
    destruct (String.eqb_spec s "") as [->|Hne]; [simpl in Hs; intuition discriminate|].
    unfold truthyString. apply String.eqb_neq in Hne. rewrite Hne. simpl negb.
    cbv iota. apply arrayIncludes_In in Hs. rewrite Hs. reflexivity.
  - revert Hin. generalize (validateLanguage language). intros r Hr.
    unfold supportedLanguages in Hr. simpl in Hr.
    repeat (destruct Hr as [<-|Hr]; [reflexivity|]). contradiction.
Qed.

Lemma enumeration_generic (allowed : list string) (d : string) (v : JsValue) :
  In d allowed ->
  let r := match v with
           | JString s => if arrayIncludes allowed s then s else d
           | _ => d
           end in
  In r allowed /\ (r <> d -> v = JString r) /\
  (forall s, v = JString s -> In s allowed -> r = s).
Proof.
  intros Hd.
  destruct v as [| |b|n|s|items|fields]; simpl;
    try (split; [exact Hd | split; [congruence | intros; discriminate]]).
  destruct (arrayIncludes allowed s) eqn:E.
  - split; [apply arrayIncludes_In, E|]. split; [reflexivity|].
    intros s' Hs _. injection Hs as <-. reflexivity.
  - split; [exact Hd|]. split; [congruence|].
    intros s' Hs Hin. injection Hs as <-.
    apply arrayIncludes_In in Hin. congruence.
Qed.

(** X3. [validateAnalysisType] and [validateProviderType] answer with a
    member of their lists; a member is kept as it is, anything else, also
    a member written in another case, becomes the default. *)
Theorem enumerations_are_matched_exactly (v : JsValue) :
  In (validateAnalysisType v) ["general"; "security"; "performance"; "maintainability"]
  /\ In (validateProviderType v) ["gemini"; "groq"; "huggingface"; "auto"]
  /\ (validateAnalysisType v <> "general" -> v = JString (validateAnalysisType v))
  /\ (validateProviderType v <> "auto" -> v = JString (validateProviderType v))
  /\ (forall s, v = JString s ->
        (In s ["general"; "security"; "performance"; "maintainability"] ->
         validateAnalysisType v = s) /\
        (In s ["gemini"; "groq"; "huggingface"; "auto"] ->
         validateProviderType v = s)).
Proof.
  destruct (enumeration_generic
              ["general"; "security"; "performance"; "maintainability"]
              "general" v) as (Ha1 & Ha2 & Ha3); [simpl; tauto|].
  destruct (enumeration_generic ["gemini"; "groq"; "huggingface"; "auto"]
              "auto" v) as (Hp1 & Hp2 & Hp3); [simpl; tauto|].
  split; [exact Ha1|]. split; [exact Hp1|].
  split; [exact Ha2|]. split; [exact Hp2|].
  intros s Hs. split; intros Hin; [apply Ha3 | apply Hp3]; assumption.
Qed.

(** X4. [validateAnalysisResults] accepts exactly the arrays of 1 to 50
    elements. *)
Theorem validateAnalysisResults_accepts_exactly (results : JsValue) :
  validateAnalysisResults results = None <->
  exists items, results = JArray items /\
                (1 <= List.length items <= 50)%nat.
Proof.
  destruct results as [| |b|n|s|items|fields];
    try (simpl; split; [discriminate | intros (i & Hi & _); discriminate Hi]).
  unfold validateAnalysisResults. simpl truthy. simpl negb. cbv iota.
  destruct (Z.of_nat (List.length items) =? 0) eqn:E0.
  - apply Z.eqb_eq in E0. split; [discriminate|].
    intros (i & Hi & Hlen). injection Hi as <-. lia.
  - apply Z.eqb_neq in E0.
    destruct (Z.of_nat (List.length items) >? 50) eqn:E50.
    + apply Z.gtb_lt in E50. split; [discriminate|].
      intros (i & Hi & Hlen). injection Hi as <-. lia.
    + split; [|reflexivity]. intros _. exists items. split; [reflexivity|].
      destruct (Z.gtb_spec (Z.of_nat (List.length items)) 50); [discriminate | lia].
Qed.

End ValidationFacts.

(** X1 on a one-letter program and on a missing [code]. *)
Lemma validateCode_witness :
  Validation.validateCode (JString "x") = None /\
  Validation.validateCode JUndefined
  = Some "Code is required and must be a non-empty string".
Proof.
  split.
  - apply (proj1 (validateCode_accepts_exactly (JString "x"))).
    exists "x". repeat split; [discriminate | vm_compute; discriminate].
  - apply (proj2 (proj2 (validateCode_accepts_exactly JUndefined))).
    intros s Hs. discriminate Hs.
Defined.

(** X2 on a language written with capitals. *)
Lemma validateLanguage_witness :
  Validation.validateLanguage (JString "TypeScript") = "typescript".
Proof.
  apply (proj1 (proj2 (validateLanguage_stays_in_allow_list (JString "TypeScript")))
           "TypeScript" eq_refl).
  simpl. tauto.
Defined.

(** X3 on a provider and on an analysis type of the lists. *)
Lemma enumerations_witness :
  Validation.validateAnalysisType (JString "security") = "security" /\
  Validation.validateProviderType (JString "groq") = "groq".
Proof.
  split.
  - apply (proj2 (proj2 (proj2 (proj2
             (enumerations_are_matched_exactly (JString "security")))))
             "security" eq_refl).
    simpl. tauto.
  - apply (proj2 (proj2 (proj2 (proj2
             (enumerations_are_matched_exactly (JString "groq")))))
             "groq" eq_refl).
    simpl. tauto.
Defined.

(** X4 on an array of one result. *)
Lemma validateAnalysisResults_witness :
  Validation.validateAnalysisResults (JArray [JNull]) = None.
Proof.
  apply (proj2 (validateAnalysisResults_accepts_exactly (JArray [JNull]))).
  exists [JNull]. split; [reflexivity | simpl; lia].
Defined.

(** ** More on the orchestrator *)

Section MoreOrchestratorFacts.
Import AIService.
Context {W : Type}.

Lemma allFail_snoc {T : Type} (operation : ProviderConfiguration W -> Async W T)
      (l : list (ProviderConfiguration W)) (x : ProviderConfiguration W) :
  forall w w1,
  allFail operation (l ++ [x]) w = Some w1 ->
  exists w0 error, allFail operation l w = Some w0 /\
                   operation x w0 = (Throws error, w1).
Proof.
  induction l as [|q l IH]; intros w w1; simpl.
  - destruct (operation x w) as [[r|error] wx] eqn:Hx; [discriminate|].
    intros H. injection H as <-. exists w, error. auto.
  - destruct (operation q w) as [[r|error] wq]; [discriminate|]. apply IH.
Qed.

(** X5. [executeWithFallback] calls the candidates one by one in the
    attempt order, each at most once, and stops only at the first success
    or when the candidates are used up: on a result exactly one provider
    is logged as successful, it is the last one called and its name is
    the one returned; on a failure every candidate was called. *)
Theorem candidates_are_called_in_order_until_success {T : Type}
        (operation : ProviderConfiguration W -> Async W T)
        (registry : list (ProviderConfiguration W))
        (preferredProvider : option string) (w : W) :
  (exists rest,
      attemptOrder registry preferredProvider
      = invoked (snd (executeWithFallback operation registry preferredProvider w))
        ++ rest)
  /\ match fst (fst (executeWithFallback operation registry preferredProvider w)) with
     | Returns (_, providerName) =>
         exists before p,
           invoked (snd (executeWithFallback operation registry
                           preferredProvider w)) = before ++ [p] /\
           successes (snd (executeWithFallback operation registry
                             preferredProvider w)) = [p] /\
           providerName = name p
     | Throws _ =>
         invoked (snd (executeWithFallback operation registry preferredProvider w))
         = attemptOrder registry preferredProvider /\
         successes (snd (executeWithFallback operation registry
                           preferredProvider w)) = []
     end.
Proof.
  unfold executeWithFallback.
  generalize (attemptOrder registry preferredProvider). intros candidates.
  destruct (attempts_split operation candidates w)
    as [(w1 & Hall)|(before & p & after & w1 & r & w2 & -> & Hall & Hop)].
  - destruct candidates as [|c0 cs].
    + simpl. split; [exists []; reflexivity | auto].
    + destruct (@exists_last _ (c0 :: cs)) as (l & x & Hl); [discriminate|].
      rewrite Hl in *.
      destruct (allFail_snoc operation l x w w1 Hall) as (w0 & error & Hl0 & Hx).
      destruct (attemptLoop_all_fail operation l x None w w0 w1 error Hl0 Hx)
        as (log & Hrun & Hi & Hs & _).
      rewrite Hrun. simpl. rewrite Hi, Hs.
      split; [exists []; rewrite app_nil_r; reflexivity | auto].
  - destruct (attemptLoop_first_success operation before p after None w w1 w2 r
                Hall Hop) as (log & Hrun & Hi & Hs & _).
    rewrite Hrun. simpl. rewrite Hi, Hs. split.
    + exists after. rewrite <- app_assoc. reflexivity.
    + exists before, p. auto.
Qed.

(** X6. A registry entry whose [checkAvailable] returns [false] is never a
    candidate: whatever the hint and the operation, it is not called and
    no failure is recorded for it. *)
Theorem unavailable_entry_is_never_attempted {T : Type}
        (operation : ProviderConfiguration W -> Async W T)
        (registry : list (ProviderConfiguration W))
        (preferredProvider : option string) (w : W)
        (p : ProviderConfiguration W) (check : unit -> bool) :
  checkAvailable p = Some check ->
  check tt = false ->
  ~ In p (attemptOrder registry preferredProvider) /\
  ~ In p (invoked (snd (executeWithFallback operation registry
                          preferredProvider w))) /\
  ~ In p (map fst (failures (snd (executeWithFallback operation registry
                                    preferredProvider w)))).
Proof.
  intros Hcheck Hfalse.
  assert (Hno : passesAvailabilityFilter p = false)
    by (unfold passesAvailabilityFilter; rewrite Hcheck; exact Hfalse).
  split; [|split]; intros Hin.
  - apply attemptOrder_passes_filter in Hin. destruct Hin as [_ Hin]. congruence.
  - destruct (executeWithFallback_calls_only_filtered operation registry
                preferredProvider w p (or_introl Hin)) as [_ H]. congruence.
  - destruct (executeWithFallback_calls_only_filtered operation registry
                preferredProvider w p (or_intror Hin)) as [_ H]. congruence.
Qed.

Lemma findIndex_none {A : Type} (pred : A -> bool) (l : list A) :
  (forall x, In x l -> pred x = false) -> findIndex pred l = -1.
Proof.
  induction l as [|y l IH]; intros H; [reflexivity|].
  simpl. rewrite (H y (or_introl eq_refl)).
  rewrite IH by (intros x Hx; apply H; right; exact Hx). reflexivity.
Qed.

(** X7. A hint that names no available provider, be it unknown or filtered
    out, is ignored: the attempt order is the one by priority, and nothing
    is thrown on its account. *)
Theorem unmatched_hint_is_ignored
        (registry : list (ProviderConfiguration W)) (hint : string) :
  (forall p, In p (filter passesAvailabilityFilter registry) ->
             toLowerCase (name p) <> toLowerCase hint) ->
  attemptOrder registry (Some hint) = getAvailableProviders registry.
Proof.
  intros Hnone. apply attemptOrder_unmatched, findIndex_none.
  intros p Hp. unfold nameMatches. apply String.eqb_neq, Hnone.
  eapply Permutation_in; [apply getAvailableProviders_perm | exact Hp].
Qed.

End MoreOrchestratorFacts.

(** X6 on a registry whose second entry reports itself unavailable while
    being the preferred provider. *)
Lemma unavailable_entry_witness :
  ~ In Fixtures.U2
      (AIService.attemptOrder Fixtures.registryWithUnavailable (Some "u2")) /\
  ~ In Fixtures.U2
      (AIService.invoked
         (snd (AIService.executeWithFallback Fixtures.analyzeOperation
                 Fixtures.registryWithUnavailable (Some "u2") tt))) /\
  ~ In Fixtures.U2
      (map fst
         (AIService.failures
            (snd (AIService.executeWithFallback Fixtures.analyzeOperation
                    Fixtures.registryWithUnavailable (Some "u2") tt)))).
Proof.
  apply (unavailable_entry_is_never_attempted Fixtures.analyzeOperation
           Fixtures.registryWithUnavailable (Some "u2") tt Fixtures.U2
           (fun _ => false)); reflexivity.
Defined.

(** X7 on the same registry: the hint names the filtered-out entry. *)
Lemma unmatched_hint_witness :
  AIService.attemptOrder Fixtures.registryWithUnavailable (Some "u2")
  = [Fixtures.P1; Fixtures.P3].
Proof.
  apply (unmatched_hint_is_ignored Fixtures.registryWithUnavailable "u2").
  intros p Hp. simpl in Hp. destruct Hp as [<-|[<-|[]]]; discriminate.
Defined.

(** ** The registry of the running backend *)

Section LoadedRegistryFacts.
Import AIService.
Context {W : Type}.
Variable P : Backend.Platform W.
Variable env : Env.

Lemma loaded_registry (registry : list (ProviderConfiguration W)) :
  Backend.aiService P env = Returns registry ->
  truthyOpt (GEMINI_API_KEY env) = true /\
  exists gemini,
    registry = providers gemini (Backend.groqService P env)
                         (Backend.huggingFaceService P env).
Proof.
  unfold Backend.aiService, Backend.geminiService, GeminiService.construct, config.
  simpl gemini_apiKey.
  destruct (truthyString (orEmpty (GEMINI_API_KEY env))) eqn:Hkey; simpl;
    [|discriminate].
  intros H. injection H as <-. split; [|eexists; reflexivity].
  destruct (GEMINI_API_KEY env) as [key|]; simpl in *; [|discriminate].
  destruct (truthyString key); [reflexivity | discriminate].
Qed.

Lemma loaded_available (gemini : AIProvider W) :
  map name (getAvailableProviders
              (providers gemini (Backend.groqService P env)
                         (Backend.huggingFaceService P env)))
  = if truthyOpt (GROQ_API_KEY env)
    then ["Gemini"; "Groq"; "HuggingFace"]
    else ["Gemini"; "HuggingFace"].
Proof.
  unfold getAvailableProviders, providers. cbn [filter passesAvailabilityFilter checkAvailable].
  change (isAvailable (Backend.groqService P env) tt)
    with (truthyOpt (GROQ_API_KEY env)).
  destruct (truthyOpt (GROQ_API_KEY env)); reflexivity.
Qed.

(** X8. In a backend that loaded, the attempt order of an analyze request
    depends only on the validated hint and on whether a Groq key is set:
    Gemini first, then Groq if it has a key, then HuggingFace; the hints
    "groq" (with a key) and "huggingface" move that provider to the front;
    HuggingFace is a candidate whether it has a key or not. *)
Theorem loaded_registry_attempt_orders
        (registry : list (ProviderConfiguration W)) (preferred : JsValue) :
  Backend.aiService P env = Returns registry ->
  map name (attemptOrder registry (Some (Validation.validateProviderType preferred)))
  = if (Validation.validateProviderType preferred =? "groq")%string then
      if truthyOpt (GROQ_API_KEY env)
      then ["Groq"; "Gemini"; "HuggingFace"]
      else ["Gemini"; "HuggingFace"]
    else if (Validation.validateProviderType preferred =? "huggingface")%string then
      if truthyOpt (GROQ_API_KEY env)
      then ["HuggingFace"; "Gemini"; "Groq"]
      else ["HuggingFace"; "Gemini"]
    else
      if truthyOpt (GROQ_API_KEY env)
      then ["Gemini"; "Groq"; "HuggingFace"]
      else ["Gemini"; "HuggingFace"].
Proof.
  intros Hload. destruct (loaded_registry registry Hload) as (_ & gemini & ->).
  pose proof (proj1 (enumeration_generic ["gemini"; "groq"; "huggingface"; "auto"]
                      "auto" preferred ltac:(simpl; tauto))) as Hin.
  cbv zeta in Hin.
  change (In (Validation.validateProviderType preferred)
             ["gemini"; "groq"; "huggingface"; "auto"]) in Hin.
  revert Hin. generalize (Validation.validateProviderType preferred).
  intros hint Hin. simpl in Hin.
  unfold attemptOrder, getAvailableProviders, providers.
  cbn [filter passesAvailabilityFilter checkAvailable].
  change (isAvailable (Backend.groqService P env) tt)
    with (truthyOpt (GROQ_API_KEY env)).
  destruct Hin as [<-|[<-|[<-|[<-|[]]]]];
    destruct (truthyOpt (GROQ_API_KEY env)); reflexivity.
Qed.

(** X9. The status endpoint of a backend that loaded answers 200 with
    [available_providers] equal to Gemini, Groq if it has a key, and
    HuggingFace, and with [provider_configs] telling which keys are set:
    [gemini] is always [true] there, and HuggingFace is listed as
    available also when [provider_configs.huggingface] is [false]. *)
Theorem provider_status_of_loaded_backend
        (registry : list (ProviderConfiguration W)) (w : W) :
  Backend.aiService P env = Returns registry ->
  Controller.getProviderStatus registry env w
  = ({| ResponseUtils.statusCode := 200;
        ResponseUtils.body :=
          JObject
            [ ("success", JBool true);
              ("data",
               JObject
                 [ ("available_providers",
                    JArray
                      (if truthyOpt (GROQ_API_KEY env)
                       then [JString "Gemini"; JString "Groq"; JString "HuggingFace"]
                       else [JString "Gemini"; JString "HuggingFace"]));
                   ("provider_configs",
                    JObject
                      [ ("gemini", JBool true);
                        ("groq", JBool (truthyOpt (GROQ_API_KEY env)));
                        ("huggingface",
                         JBool (truthyOpt (HUGGINGFACE_API_KEY env))) ]) ]) ] |},
     w, []).
Proof.
  intros Hload.
  destruct (loaded_registry registry Hload) as (Hgemini & gemini & ->).
  unfold Controller.getProviderStatus, getAvailableProviderNames.
  rewrite loaded_available, Hgemini.
  destruct (truthyOpt (GROQ_API_KEY env)); reflexivity.
Qed.

End LoadedRegistryFacts.

(** X8 with keys for Gemini and Groq, and the hint "groq". *)
Lemma loaded_registry_witness :
  exists registry,
    Backend.aiService Fixtures.outage Fixtures.envWithoutHuggingFace
    = Returns registry /\
    map name (AIService.attemptOrder registry
                (Some (Validation.validateProviderType (JString "groq"))))
    = ["Groq"; "Gemini"; "HuggingFace"].
Proof.
  eexists. split; [reflexivity|].
  apply (loaded_registry_attempt_orders Fixtures.outage
           Fixtures.envWithoutHuggingFace _ (JString "groq") eq_refl).
Defined.

(** X9 with a key for Gemini only. *)
Lemma provider_status_witness :
  exists registry,
    Backend.aiService Fixtures.outage Fixtures.envGeminiOnly = Returns registry /\
    prop (prop (ResponseUtils.body
                  (fst (fst (Controller.getProviderStatus registry
                               Fixtures.envGeminiOnly 0%nat))))
               "data") "available_providers"
    = JArray [JString "Gemini"; JString "HuggingFace"].
Proof.
  eexists. split; [reflexivity|].
  rewrite (provider_status_of_loaded_backend Fixtures.outage
             Fixtures.envGeminiOnly _ 0%nat eq_refl).
  reflexivity.
Defined.

(** ** The handlers, end to end *)

Section EndToEndFacts.
Import AIService Validation ResponseUtils.
Context {W : Type}.
Variable toISOStringNow : W -> string * W.
Variable registry : list (ProviderConfiguration W).

Lemma respond_first_success (operation : ProviderConfiguration W -> Async W string)
      (hint : option string) (lang kind : string) before p after w w1 w2 r :
  attemptOrder registry hint = before ++ p :: after ->
  allFail operation before w = Some w1 ->
  operation p w1 = (Returns r, w2) ->
  exists log,
    Controller.respond
      (envelope toISOStringNow lang kind
         (executeWithFallback operation registry hint w))
    = (sendSuccess
         (Controller.resultJson
            {| analysis := r; provider := name p;
               metadata := {| md_language := lang; md_analysisType := kind;
                              md_timestamp := fst (toISOStringNow w2) |} |}),
       snd (toISOStringNow w2), log) /\
    invoked log = before ++ [p].
Proof.
  intros Horder Hall Hop. unfold executeWithFallback. rewrite Horder.
  destruct (attemptLoop_first_success operation before p after None w w1 w2 r
              Hall Hop) as (log & Hrun & Hi & _).
  exists log. rewrite Hrun. unfold envelope, Controller.respond.
  destruct (toISOStringNow w2). auto.
Qed.

Lemma respond_exhausted (operation : ProviderConfiguration W -> Async W string)
      (hint : option string) (lang kind : string) before final w w1 w2 error :
  attemptOrder registry hint = before ++ [final] ->
  allFail operation before w = Some w1 ->
  operation final w1 = (Throws error, w2) ->
  exists log,
    Controller.respond
      (envelope toISOStringNow lang kind
         (executeWithFallback operation registry hint w))
    = (sendServerError
         (mkError ("All AI providers failed. Last error: " ^^ message error)),
       w2, log) /\
    invoked log = before ++ [final].
Proof.
  intros Horder Hall Hop. unfold executeWithFallback. rewrite Horder.
  destruct (attemptLoop_all_fail operation before final None w w1 w2 error
              Hall Hop) as (log & Hrun & Hi & _).
  exists log. rewrite Hrun. auto.
Qed.

Lemma respond_none_available (operation : ProviderConfiguration W -> Async W string)
      (hint : option string) (lang kind : string) w :
  filter passesAvailabilityFilter registry = [] ->
  Controller.respond
    (envelope toISOStringNow lang kind
       (executeWithFallback operation registry hint w))
  = (sendServerError (mkError "No AI providers available"), w, []).
Proof.
  intros Hnone. unfold executeWithFallback.
  pose proof (attemptOrder_perm registry hint) as Hperm.
  rewrite Hnone in Hperm. apply Permutation_sym, Permutation_nil in Hperm.
  rewrite Hperm. reflexivity.
Qed.

Lemma validateCode_accepts (text : string) :
  trim text <> "" -> strLength text <= 2000000 ->
  validateCode (JString text) = None.
Proof.
  intros Ht Hlen. rewrite validateCode_string.
  apply String.eqb_neq in Ht. rewrite Ht.
  destruct (Z.gtb_spec (strLength text) 2000000); [lia | reflexivity].
Qed.

(** X10. An analyze request with an acceptable [code] is run on the
    trimmed code with the validated language, analysis type and hint; when
    the candidates before [p] fail and [p] answers [r], the response is
    200 with [{success: true, data: {analysis: r, provider: p.name,
    metadata: {language, analysisType, timestamp}}}], the metadata holding
    the validated values and the clock read after the answer. *)
Theorem analyze_success_response
        (reqBody : list (string * JsValue)) (text : string)
        (before after : list (ProviderConfiguration W))
        (p : ProviderConfiguration W) (w w1 w2 : W) (r : string) :
  getField reqBody "code" = JString text ->
  trim text <> "" ->
  strLength text <= 2000000 ->
  attemptOrder registry
    (Some (validateProviderType (getField reqBody "preferredProvider")))
  = before ++ p :: after ->
  allFail (fun q => Provider.analyzeCode (service q) (trim text)
                      (validateLanguage (getField reqBody "language"))
                      (validateAnalysisType (getField reqBody "analysisType")))
          before w = Some w1 ->
  Provider.analyzeCode (service p) (trim text)
    (validateLanguage (getField reqBody "language"))
    (validateAnalysisType (getField reqBody "analysisType")) w1
  = (Returns r, w2) ->
  exists log,
    Controller.analyzeCode toISOStringNow registry reqBody w
    = ({| statusCode := 200;
          body :=
            JObject
              [ ("success", JBool true);
                ("data",
                 JObject
                   [ ("analysis", JString r);
                     ("provider", JString (name p));
                     ("metadata",
                      JObject
                        [ ("language",
                           JString (validateLanguage (getField reqBody "language")));
                          ("analysisType",
                           JString (validateAnalysisType
                                      (getField reqBody "analysisType")));
                          ("timestamp",
                           JString (fst (toISOStringNow w2))) ]) ]) ] |},
       snd (toISOStringNow w2), log) /\
    invoked log = before ++ [p].
Proof.
  intros Hcode Ht Hlen Horder Hall Hop.
  unfold Controller.analyzeCode. rewrite Hcode.
  rewrite (validateCode_accepts text Ht Hlen).
  unfold AIService.analyzeCode. cbn [code language analysisType preferredProvider orDefault].
  exact (respond_first_success _ _ _ _ before p after w w1 w2 r Horder Hall Hop).
Qed.

(** X11. When every candidate of an analyze request fails, the response is
    500 with [{success: false, error: "Internal Server Error", message}]
    where [message] is "All AI providers failed. Last error: " followed by
    the message of the last failure; with no available provider the
    message is "No AI providers available". *)
Theorem analyze_exhaustion_response
        (reqBody : list (string * JsValue)) (text : string) (w : W) :
  getField reqBody "code" = JString text ->
  trim text <> "" ->
  strLength text <= 2000000 ->
  (forall before final w1 w2 error,
      attemptOrder registry
        (Some (validateProviderType (getField reqBody "preferredProvider")))
      = before ++ [final] ->
      allFail (fun q => Provider.analyzeCode (service q) (trim text)
                          (validateLanguage (getField reqBody "language"))
                          (validateAnalysisType (getField reqBody "analysisType")))
              before w = Some w1 ->
      Provider.analyzeCode (service final) (trim text)
        (validateLanguage (getField reqBody "language"))
        (validateAnalysisType (getField reqBody "analysisType")) w1
      = (Throws error, w2) ->
      exists log,
        Controller.analyzeCode toISOStringNow registry reqBody w
        = ({| statusCode := 500;
              body :=
                JObject
                  [ ("success", JBool false);
                    ("error", JString "Internal Server Error");
                    ("message",
                     JString ("All AI providers failed. Last error: "
                              ^^ message error)) ] |},
           w2, log) /\
        invoked log = before ++ [final])
  /\ (filter passesAvailabilityFilter registry = [] ->
      Controller.analyzeCode toISOStringNow registry reqBody w
      = ({| statusCode := 500;
            body :=
              JObject
                [ ("success", JBool false);
                  ("error", JString "Internal Server Error");
                  ("message", JString "No AI providers available") ] |},
         w, [])).
Proof.
  intros Hcode Ht Hlen.
  unfold Controller.analyzeCode. rewrite Hcode.
  rewrite (validateCode_accepts text Ht Hlen).
  unfold AIService.analyzeCode. cbn [code language analysisType preferredProvider orDefault].
  split.
  - intros before final w1 w2 error Horder Hall Hop.
    exact (respond_exhausted _ _ _ _ before final w w1 w2 error Horder Hall Hop).
  - intros Hnone. apply respond_none_available, Hnone.
Qed.

End EndToEndFacts.

Section MoreEndToEndFacts.
Import AIService Validation ResponseUtils.
Context {W : Type}.
Variable toISOStringNow : W -> string * W.
Variable registry : list (ProviderConfiguration W).

(** X12. Explain and improve requests never use a provider hint: whatever
    else the body holds, the candidates are tried in the order of an
    absent hint; on the first answer [r] of a provider [p] the response is
    200 with the envelope of [r] and [p.name] whose [analysisType] is
    "explanation", respectively "improvements"; a missing [context] is
    passed on as the empty string. *)
Theorem explain_and_improve_use_the_default_order
        (reqBody : list (string * JsValue)) (text : string)
        (before after : list (ProviderConfiguration W))
        (p : ProviderConfiguration W) (w w1 w2 : W) (r : string) :
  getField reqBody "code" = JString text ->
  trim text <> "" ->
  strLength text <= 2000000 ->
  attemptOrder registry None = before ++ p :: after ->
  (allFail (fun q => Provider.explainCode (service q) (trim text)
                       (validateLanguage (getField reqBody "language")))
           before w = Some w1 ->
   Provider.explainCode (service p) (trim text)
     (validateLanguage (getField reqBody "language")) w1 = (Returns r, w2) ->
   exists log,
     Controller.explainCode toISOStringNow registry reqBody w
     = (sendSuccess
          (JObject
             [ ("analysis", JString r);
               ("provider", JString (name p));
               ("metadata",
                JObject
                  [ ("language",
                     JString (validateLanguage (getField reqBody "language")));
                    ("analysisType", JString "explanation");
                    ("timestamp", JString (fst (toISOStringNow w2))) ]) ]),
        snd (toISOStringNow w2), log) /\
     invoked log = before ++ [p])
  /\ (allFail (fun q => Provider.suggestImprovements (service q) (trim text)
                          (validateLanguage (getField reqBody "language"))
                          (Controller.withDefault (getField reqBody "context")
                                                  (JString "")))
              before w = Some w1 ->
      Provider.suggestImprovements (service p) (trim text)
        (validateLanguage (getField reqBody "language"))
        (Controller.withDefault (getField reqBody "context") (JString "")) w1
      = (Returns r, w2) ->
      exists log,
        Controller.suggestImprovements toISOStringNow registry reqBody w
        = (sendSuccess
             (JObject
                [ ("analysis", JString r);
                  ("provider", JString (name p));
                  ("metadata",
                   JObject
                     [ ("language",
                        JString (validateLanguage (getField reqBody "language")));
                       ("analysisType", JString "improvements");
                       ("timestamp", JString (fst (toISOStringNow w2))) ]) ]),
           snd (toISOStringNow w2), log) /\
        invoked log = before ++ [p]).
Proof.
  intros Hcode Ht Hlen Horder. split; intros Hall Hop.
  - unfold Controller.explainCode. rewrite Hcode.
    rewrite (validateCode_accepts text Ht Hlen).
    unfold AIService.explainCode. cbn [orDefault].
    exact (respond_first_success toISOStringNow registry _ _ _ _
             before p after w w1 w2 r Horder Hall Hop).
  - unfold Controller.suggestImprovements. rewrite Hcode.
    rewrite (validateCode_accepts text Ht Hlen).
    unfold AIService.suggestImprovements. cbn [orDefault].
    exact (respond_first_success toISOStringNow registry _ _ _ _
             before p after w w1 w2 r Horder Hall Hop).
Qed.

Lemma respond_isEnvelope
      (run : outcome ProcessedAnalysisResult * W * list (Event W)) :
  isEnvelope (fst (fst (Controller.respond run))).
Proof.
  destruct run as [[[result|error] w1] log]; simpl.
  - left. split; [reflexivity | eexists; reflexivity].
  - right. right. split; [reflexivity | eexists; reflexivity].
Qed.

Lemma validation_isEnvelope (msg : string) : isEnvelope (sendValidationError msg).
Proof. right. left. split; [reflexivity | eexists; reflexivity]. Qed.

Lemma server_error_isEnvelope (e : Error) : isEnvelope (sendServerError e).
Proof. right. right. split; [reflexivity | eexists; reflexivity]. Qed.

(** X13. Whatever the request and the behaviour of the providers, each of
    the five handlers answers with one of three shapes: status 200 and
    [{success: true, data}], status 400 and [{success: false, error:
    "Validation Error", message}], or status 500 and [{success: false,
    error: "Internal Server Error", message}]. *)
Theorem handlers_answer_with_an_envelope
        (reqBody : list (string * JsValue)) (env : Env) (w : W) :
  isEnvelope (fst (fst (Controller.analyzeCode toISOStringNow registry reqBody w)))
  /\ isEnvelope (fst (fst (Controller.explainCode toISOStringNow registry reqBody w)))
  /\ isEnvelope (fst (fst (Controller.suggestImprovements toISOStringNow registry
                             reqBody w)))
  /\ isEnvelope (fst (fst (Controller.generateReport toISOStringNow registry
                             reqBody w)))
  /\ isEnvelope (fst (fst (Controller.getProviderStatus registry env w))).
Proof.
  split; [|split; [|split; [|split]]].
  - unfold Controller.analyzeCode.
    destruct (validateCode (getField reqBody "code")); [apply validation_isEnvelope|].
    destruct (getField reqBody "code");
      try apply server_error_isEnvelope. apply respond_isEnvelope.
  - unfold Controller.explainCode.
    destruct (validateCode (getField reqBody "code")); [apply validation_isEnvelope|].
    destruct (getField reqBody "code");
      try apply server_error_isEnvelope. apply respond_isEnvelope.
  - unfold Controller.suggestImprovements.
    destruct (validateCode (getField reqBody "code")); [apply validation_isEnvelope|].
    destruct (getField reqBody "code");
      try apply server_error_isEnvelope. apply respond_isEnvelope.
  - unfold Controller.generateReport.
    destruct (getField reqBody "analysisResults") as [| | | | |items|];
      try apply validation_isEnvelope.
    destruct (negb (truthy (JArray items)) || (Z.of_nat (List.length items) =? 0));
      [apply validation_isEnvelope|].
    destruct (AIService.generateReport toISOStringNow registry items _ w)
      as [[[report|error] w1] log].
    + destruct (toISOStringNow w1). left.
      split; [reflexivity | eexists; reflexivity].
    + apply server_error_isEnvelope.
  - left. split; [reflexivity | eexists; reflexivity].
Qed.

(** X14. A report request is rejected with status 400 exactly when
    [analysisResults] is not a non-empty array, and then with the message
    "Analysis results must be provided as a non-empty array", an untouched
    world and no provider called; an array of any length from 1 on goes to
    the orchestrator. *)
Theorem report_is_rejected_exactly_without_results
        (reqBody : list (string * JsValue)) (w : W) :
  (statusCode (fst (fst (Controller.generateReport toISOStringNow registry
                           reqBody w))) = 400
   <-> forall items, getField reqBody "analysisResults" = JArray items ->
                     items = [])
  /\ (statusCode (fst (fst (Controller.generateReport toISOStringNow registry
                              reqBody w))) = 400 ->
      Controller.generateReport toISOStringNow registry reqBody w
      = (sendValidationError
           "Analysis results must be provided as a non-empty array", w, [])).
Proof.
  unfold Controller.generateReport.
  destruct (getField reqBody "analysisResults") as [| | | | |items|] eqn:Hres;
    try (split; [split; [intros _ items Hitems; discriminate Hitems
                        | reflexivity]
                | reflexivity]).
  destruct items as [|first others].
  - simpl. split; [split; [intros _ items Hitems; injection Hitems as <-; reflexivity
                          | reflexivity]
                  | reflexivity].
  - replace (negb (truthy (JArray (first :: others)))
             || (Z.of_nat (List.length (first :: others)) =? 0)) with false
      by reflexivity.
    destruct (AIService.generateReport toISOStringNow registry (first :: others) _ w)
      as [[[report|error] w1] log].
    + destruct (toISOStringNow w1). simpl.
      split; [split; [discriminate | intros H; specialize (H _ eq_refl); discriminate H]
             | discriminate].
    + simpl.
      split; [split; [discriminate | intros H; specialize (H _ eq_refl); discriminate H]
             | discriminate].
Qed.

End MoreEndToEndFacts.

(** X10 on three providers: the first fails, the second answers. *)
Lemma analyze_success_witness :
  exists log,
    Controller.analyzeCode Fixtures.frozenClock Fixtures.registry123
      Fixtures.analyzeBody tt
    = ({| ResponseUtils.statusCode := 200;
          ResponseUtils.body :=
            JObject
              [ ("success", JBool true);
                ("data",
                 JObject
                   [ ("analysis", JString "answer of P2");
                     ("provider", JString "P2");
                     ("metadata",
                      JObject
                        [ ("language", JString "typescript");
                          ("analysisType", JString "security");
                          ("timestamp", JString "2025-01-01T00:00:00.000Z") ]) ]) ] |},
       tt, log) /\
    AIService.invoked log = [Fixtures.P1; Fixtures.P2].
Proof.
  apply (analyze_success_response Fixtures.frozenClock Fixtures.registry123
           Fixtures.analyzeBody "  console.log(1)  "
           [Fixtures.P1] [Fixtures.P3] Fixtures.P2 tt tt tt "answer of P2").
  - reflexivity.
  - discriminate.
  - vm_compute. discriminate.
  - reflexivity.
  - reflexivity.
  - reflexivity.
Defined.

(** X11 on two failing providers and on an empty registry. *)
Lemma analyze_exhaustion_witness :
  (exists log,
      Controller.analyzeCode Fixtures.frozenClock [Fixtures.D2; Fixtures.D1]
        Fixtures.analyzeBody tt
      = (ResponseUtils.sendError "Internal Server Error"
           "All AI providers failed. Last error: socket hang up" 500,
         tt, log) /\
      AIService.invoked log = [Fixtures.D1; Fixtures.D2])
  /\ Controller.analyzeCode Fixtures.frozenClock [] Fixtures.analyzeBody tt
     = (ResponseUtils.sendError "Internal Server Error"
          "No AI providers available" 500, tt, []).
Proof.
  split.
  - apply (proj1 (analyze_exhaustion_response Fixtures.frozenClock
                    [Fixtures.D2; Fixtures.D1] Fixtures.analyzeBody
                    "  console.log(1)  " tt eq_refl
                    ltac:(discriminate) ltac:(vm_compute; discriminate))
             [Fixtures.D1] Fixtures.D2 tt tt (mkError "socket hang up"));
      reflexivity.
  - apply (proj2 (analyze_exhaustion_response Fixtures.frozenClock
                    [] Fixtures.analyzeBody
                    "  console.log(1)  " tt eq_refl
                    ltac:(discriminate) ltac:(vm_compute; discriminate))).
    reflexivity.
Defined.

(** X12 on three providers, for an explain request that carries a hint. *)
Lemma explain_default_order_witness :
  exists log,
    Controller.explainCode Fixtures.frozenClock Fixtures.registry123
      Fixtures.analyzeBody tt
    = (ResponseUtils.sendSuccess
         (JObject
            [ ("analysis", JString "answer of P2");
              ("provider", JString "P2");
              ("metadata",
               JObject
                 [ ("language", JString "typescript");
                   ("analysisType", JString "explanation");
                   ("timestamp", JString "2025-01-01T00:00:00.000Z") ]) ]),
       tt, log) /\
    AIService.invoked log = [Fixtures.P1; Fixtures.P2].
Proof.
  apply (proj1 (explain_and_improve_use_the_default_order Fixtures.frozenClock
                  Fixtures.registry123 Fixtures.analyzeBody "  console.log(1)  "
                  [Fixtures.P1] [Fixtures.P3] Fixtures.P2 tt tt tt "answer of P2"
                  eq_refl ltac:(discriminate) ltac:(vm_compute; discriminate)
                  eq_refl));
    reflexivity.
Defined.

(** X14 on a body without [analysisResults]. *)
Lemma report_rejection_witness :
  Controller.generateReport Fixtures.frozenClock Fixtures.reportRegistry
    [("projectInfo", JObject [])] tt
  = (ResponseUtils.sendValidationError
       "Analysis results must be provided as a non-empty array", tt, []).
Proof.
  apply (proj2 (report_is_rejected_exactly_without_results Fixtures.frozenClock
                  Fixtures.reportRegistry [("projectInfo", JObject [])] tt)).
  apply (proj2 (proj1 (report_is_rejected_exactly_without_results
                         Fixtures.frozenClock Fixtures.reportRegistry
                         [("projectInfo", JObject [])] tt))).
  intros items Hitems. discriminate Hitems.
Defined.

(** ** More on retrying *)

Lemma firstn_seq_prefix (n start len : nat) :
  (n <= len)%nat -> firstn n (seq start len) = seq start n.
Proof.
  revert start len. induction n as [|n IH]; intros start len Hle; [reflexivity|].
  destruct len as [|len]; [lia|]. simpl. f_equal. apply IH. lia.
Qed.

Lemma firstn_attemptsUpTo (n : nat) (m : Z) :
  Z.of_nat n <= m ->
  firstn n (GeminiService.attemptsUpTo m) = GeminiService.attemptsUpTo (Z.of_nat n).
Proof.
  intros Hle. unfold GeminiService.attemptsUpTo.
  rewrite firstn_map, firstn_seq_prefix by lia. rewrite Nat2Z.id. reflexivity.
Qed.



Section MoreRetryFacts.
Import GeminiService.
Context {W T : Type}.
Variable sleep : Z -> W -> W.
Variable operation : Async W T.
Variable maxRetries baseDelay : Z.

(** The shape of the log of a loop whose last value of [attempt] is
    [maxRetries]. *)
Lemma retryLoop_shape (earlier : list Z) :
  forall w,
  let log := snd (retryLoop sleep operation maxRetries baseDelay
                    (earlier ++ [maxRetries]) w) in
  let n := List.length (calls log) in
  (1 <= n <= List.length (earlier ++ [maxRetries]))%nat /\
  map fst (calls log) = firstn n (earlier ++ [maxRetries]) /\
  delays log = map (fun k => baseDelay * 2 ^ (k - 1))
                   (firstn (n - 1) (earlier ++ [maxRetries])) /\
  Forall retried (removelast (calls log)).
Proof.
  induction earlier as [|attempt earlier IH]; intros w.
  - simpl. destruct (operation w) as [[value|error] w1].
    + simpl. repeat split; auto.
    + rewrite Z.eqb_refl. simpl. repeat split; auto.
  - rewrite <- app_comm_cons. cbn [retryLoop].
    destruct (operation w) as [[value|error] w1].
    + simpl. repeat split; auto; lia.
    + destruct (attempt =? maxRetries) eqn:Elast; simpl orb;
        [simpl; repeat split; auto; lia|].
      destruct (isRateLimitError error) eqn:Erate; simpl negb;
        [|simpl; repeat split; auto; lia].
      specialize (IH (sleep (baseDelay * 2 ^ (attempt - 1)) w1)).
      destruct (retryLoop sleep operation maxRetries baseDelay
                  (earlier ++ [maxRetries])
                  (sleep (baseDelay * 2 ^ (attempt - 1)) w1))
        as [[c w2] log].
      cbn [snd fst] in *. cbn [calls delays List.length].
      destruct IH as ((Hn1 & Hn2) & Hcalls & Hdelays & Hretried).
      destruct (calls log) as [|first others] eqn:Hc; [simpl in Hn1; lia|].
      cbn [List.length] in *.
      split; [lia|]. split; [simpl; f_equal; exact Hcalls|]. split.
      * replace (S (S (List.length others)) - 1)%nat
          with (S (List.length others)) by lia.
        replace (S (List.length others) - 1)%nat
          with (List.length others) in Hdelays by lia.
        simpl. f_equal. exact Hdelays.
      * change (removelast ((attempt, Throws error) :: first :: others))
          with ((attempt, Throws error) :: removelast (first :: others)).
        constructor; [exists error; auto | exact Hretried].
Qed.

End MoreRetryFacts.

Section RetryShapeFacts.
Import GeminiService.
Context {W T : Type}.
Variable sleep : Z -> W -> W.
Variable operation : Async W T.
Variable maxRetries baseDelay : Z.

Lemma attemptsUpTo_length (m : Z) :
  List.length (attemptsUpTo m) = Z.to_nat m.
Proof. unfold attemptsUpTo. rewrite length_map, length_seq. reflexivity. Qed.


(** X15. Whatever the operation does, [retryWithBackoff] calls it for the
    attempts 1, 2, ..., n in a row with n at most [maxRetries] (and at
    least 1 when [maxRetries >= 1]); every call but the last threw a
    rate-limit error; one sleep separates two calls, and the one after
    attempt [k] lasts [baseDelay * 2^(k-1)]. *)
Theorem retry_log_shape (w : W) :
  let log := snd (retryWithBackoff sleep operation maxRetries baseDelay w) in
  let n := Z.of_nat (List.length (calls log)) in
  n <= Z.max 0 maxRetries /\
  (1 <= maxRetries -> 1 <= n) /\
  map fst (calls log) = attemptsUpTo n /\
  delays log = map (fun k => baseDelay * 2 ^ (k - 1)) (attemptsUpTo (n - 1)) /\
  Forall retried (removelast (calls log)).
Proof.
  destruct (Z.le_gt_cases maxRetries 0) as [Hle|Hgt].
  - rewrite trailing_throw_without_attempts by exact Hle. simpl.
    repeat split; auto; lia.
  - unfold retryWithBackoff.
    pose proof (retryLoop_shape sleep operation maxRetries baseDelay
                  (attemptsUpTo (maxRetries - 1)) w) as H.
    cbv zeta in H. rewrite <- (attemptsUpTo_snoc maxRetries) in H by lia.
    rewrite attemptsUpTo_length in H.
    destruct H as ((Hn1 & Hn2) & Hcalls & Hdelays & Hretried).
    cbv zeta.
    split; [lia|]. split; [lia|]. split; [|split; [|exact Hretried]].
    + rewrite Hcalls. apply firstn_attemptsUpTo. lia.
    + rewrite Hdelays. rewrite firstn_attemptsUpTo by lia.
      do 2 f_equal. lia.
Qed.


End RetryShapeFacts.

(** X15 on an operation that is rate limited once and then answers. *)
Lemma retry_log_witness :
  let log := snd (GeminiService.retryWithBackoff Fixtures.noSleep
                    Fixtures.limitedOnce 3 1000 0%nat) in
  1 <= Z.of_nat (List.length (GeminiService.calls log)) /\
  map fst (GeminiService.calls log) = [1; 2] /\
  GeminiService.delays log = [1000].
Proof.
  pose proof (retry_log_shape Fixtures.noSleep Fixtures.limitedOnce 3 1000 0%nat)
    as (_ & Hn & Hcalls & Hdelays & _).
  cbv zeta. split; [apply Hn; lia|]. split; [exact Hcalls | exact Hdelays].
Defined.


(** ** The adapters *)

Lemma prefix_append (p s : string) : String.prefix p (p ^^ s) = true.
Proof.
  induction p as [|c p IH]; simpl; [destruct s; reflexivity|].
  destruct (ascii_dec c c); [exact IH | congruence].
Qed.

Section GeminiAdapterFacts.
Context {W : Type}.
Variable sleep : Z -> W -> W.
Variable R : Type.
Variable generateContent : string -> Async W R.
Variable responseText : R -> Async W string.
Variable buildAnalysisPrompt : string -> string -> string -> string.
Variable reportPrompt : list JsValue -> JsValue -> string.
Variable explainPrompt : string -> string -> string.
Variable improvePrompt : string -> string -> JsValue -> string.

(** X17. Of the four operations of the Gemini adapter only [analyzeCode]
    waits out a rate limit: when the model is rate limited on the first
    call and answers on the second, [analyzeCode] sleeps 1000 ms and
    returns the answer, while [explainCode], [suggestImprovements] and
    [generateReport] fail on that first error, with their own prefix put
    before its message and without a second call. *)
Theorem only_analyzeCode_waits_out_a_rate_limit
        (code language analysisType : string) (context projectInfo : JsValue)
        (items : list JsValue) (error : Error) (w w1 : W) :
  GeminiService.isRateLimitError error = true ->
  (generateContent (buildAnalysisPrompt code language analysisType) w
   = (Throws error, w1) ->
   forall result w2 text w3,
     generateContent (buildAnalysisPrompt code language analysisType)
                     (sleep 1000 w1) = (Returns result, w2) ->
     responseText result w2 = (Returns text, w3) ->
     GeminiService.analyzeCode W sleep R generateContent responseText
       buildAnalysisPrompt code language analysisType w
     = (Returns text, w3))
  /\ (generateContent (explainPrompt code language) w = (Throws error, w1) ->
      GeminiService.explainCode W R generateContent responseText explainPrompt
        code language w
      = (Throws (mkError ("Code explanation failed: " ^^ message error)), w1))
  /\ (generateContent (improvePrompt code language context) w = (Throws error, w1) ->
      GeminiService.suggestImprovements W R generateContent responseText
        improvePrompt code language context w
      = (Throws (mkError ("Code improvement suggestions failed: "
                          ^^ message error)), w1))
  /\ (generateContent
        (reportPrompt items
           match projectInfo with
           | JUndefined => JObject []
           | _ => projectInfo
           end) w = (Throws error, w1) ->
      GeminiService.generateReport W R generateContent responseText
        reportPrompt items projectInfo w
      = (Throws (mkError ("Report generation failed: " ^^ message error)), w1)).
Proof.
  intros Hrate. split; [|split; [|split]].
  - intros H1 result w2 text w3 H2 H3.
    unfold GeminiService.analyzeCode, GeminiService.retryWithBackoff. simpl.
    rewrite H1, Hrate. simpl. rewrite H2. simpl. rewrite H3. reflexivity.
  - intros H. unfold GeminiService.explainCode, GeminiService.askModel.
    rewrite H. reflexivity.
  - intros H. unfold GeminiService.suggestImprovements, GeminiService.askModel.
    rewrite H. reflexivity.
  - intros H. unfold GeminiService.generateReport, GeminiService.askModel.
    rewrite H. reflexivity.
Qed.

End GeminiAdapterFacts.

(** X17 on a model that is rate limited once and then answers. *)
Lemma only_analyzeCode_waits_witness :
  GeminiService.analyzeCode Fixtures.Calls Fixtures.noSleep string
    (fun _ => Fixtures.limitedOnce) (fun text w => (Returns text, w))
    (fun code _ _ => code) "console.log(1)" "javascript" "general" 0%nat
  = (Returns "done", 2%nat)
  /\ GeminiService.explainCode Fixtures.Calls string
       (fun _ => Fixtures.limitedOnce) (fun text w => (Returns text, w))
       (fun code _ => code) "console.log(1)" "javascript" 0%nat
     = (Throws (mkError "Code explanation failed: 429 Too Many Requests"), 1%nat).
Proof.
  pose proof (only_analyzeCode_waits_out_a_rate_limit Fixtures.noSleep string
                (fun _ => Fixtures.limitedOnce) (fun text w => (Returns text, w))
                (fun code _ _ => code) (fun _ _ => "report") (fun code _ => code)
                (fun code _ _ => code)
                "console.log(1)" "javascript" "general" (JString "") (JObject [])
                [] (mkError "429 Too Many Requests") 0%nat 1%nat eq_refl)
    as (Hanalyze & Hexplain & _).
  split.
  - apply (Hanalyze eq_refl "done" 2%nat "done" 2%nat); reflexivity.
  - apply Hexplain. reflexivity.
Defined.

Section GroqAdapterFacts.
Context {W : Type}.
Variable chatCompletionsCreate : string -> Z -> Async W (option string).
Variable buildAnalysisPrompt : string -> string -> string -> string.
Variable explainPrompt : string -> string -> string.
Variable improvePrompt : string -> string -> JsValue -> string.
Variable apiKey : option string.

Lemma contentOr_nonempty (content : option string) (fallback : string) :
  fallback <> "" -> GroqService.contentOr content fallback <> "".
Proof.
  intros Hf. unfold GroqService.contentOr.
  destruct content as [text|]; [|exact Hf].
  destruct (truthyString text) eqn:E; [|exact Hf].
  intros ->. discriminate E.
Qed.

Lemma complete_cases (prompt : string) (temperature : Z)
      (fallback failurePrefix : string) (w : W) :
  fallback <> "" ->
  (truthyOpt apiKey = false ->
   GroqService.complete W chatCompletionsCreate apiKey prompt temperature
     fallback failurePrefix w
   = (Throws (mkError "Groq client not initialized - missing API key"), w))
  /\ (forall text w1,
         GroqService.complete W chatCompletionsCreate apiKey prompt temperature
           fallback failurePrefix w = (Returns text, w1) ->
         text <> "" /\ truthyOpt apiKey = true)
  /\ (truthyOpt apiKey = true ->
      forall error w1,
        GroqService.complete W chatCompletionsCreate apiKey prompt temperature
          fallback failurePrefix w = (Throws error, w1) ->
        String.prefix failurePrefix (message error) = true).
Proof.
  intros Hf. unfold GroqService.complete.
  destruct (truthyOpt apiKey) eqn:Hkey; simpl.
  - split; [discriminate|].
    destruct (chatCompletionsCreate prompt temperature w) as [[content|upstream] w'].
    + split.
      * intros text w1 H. injection H as <- _.
        split; [apply contentOr_nonempty, Hf | reflexivity].
      * intros _ error w1 H. discriminate H.
    + split.
      * intros text w1 H. discriminate H.
      * intros _ error w1 H. injection H as <- _. apply prefix_append.
  - split; [reflexivity|]. split.
    + intros text w1 H. discriminate H.
    + discriminate.
Qed.

(** X18. The Groq adapter without a key fails each of its three
    operations with "Groq client not initialized - missing API key" and
    without calling the remote service; with a key, a failure carries the
    prefix of the operation ("Groq analysis failed: " and so on) and a
    returned text is never empty: an empty or missing completion is
    replaced by a placeholder and counts as a success. *)
Theorem groq_adapter_outcomes
        (code language analysisType : string) (context : JsValue) (w : W) :
  let groq := GroqService.construct W chatCompletionsCreate buildAnalysisPrompt
                explainPrompt improvePrompt apiKey in
  (truthyOpt apiKey = false ->
   Provider.analyzeCode groq code language analysisType w
   = (Throws (mkError "Groq client not initialized - missing API key"), w) /\
   Provider.explainCode groq code language w
   = (Throws (mkError "Groq client not initialized - missing API key"), w) /\
   Provider.suggestImprovements groq code language context w
   = (Throws (mkError "Groq client not initialized - missing API key"), w))
  /\ (forall text w1,
         Provider.analyzeCode groq code language analysisType w = (Returns text, w1)
         \/ Provider.explainCode groq code language w = (Returns text, w1)
         \/ Provider.suggestImprovements groq code language context w
            = (Returns text, w1) ->
         text <> "" /\ truthyOpt apiKey = true)
  /\ (truthyOpt apiKey = true ->
      forall error w1,
        (Provider.analyzeCode groq code language analysisType w = (Throws error, w1) ->
         String.prefix "Groq analysis failed: " (message error) = true) /\
        (Provider.explainCode groq code language w = (Throws error, w1) ->
         String.prefix "Groq explanation failed: " (message error) = true) /\
        (Provider.suggestImprovements groq code language context w
         = (Throws error, w1) ->
         String.prefix "Groq improvement suggestions failed: " (message error)
         = true)).
Proof.
  cbv zeta. simpl.
  unfold GroqService.analyzeCode, GroqService.explainCode,
    GroqService.suggestImprovements.
  pose proof (complete_cases (buildAnalysisPrompt code language analysisType) 3
                "No analysis generated" "Groq analysis failed: " w
                ltac:(discriminate)) as (A1 & A2 & A3).
  pose proof (complete_cases (explainPrompt code language) 3
                "No explanation generated" "Groq explanation failed: " w
                ltac:(discriminate)) as (E1 & E2 & E3).
  pose proof (complete_cases (improvePrompt code language context) 4
                "No suggestions generated"
                "Groq improvement suggestions failed: " w
                ltac:(discriminate)) as (I1 & I2 & I3).
  split; [|split].
  - intros Hkey. auto.
  - intros text w1 [H|[H|H]]; eauto.
  - intros Hkey error w1. repeat split; intros H; eauto.
Qed.

End GroqAdapterFacts.

Section HuggingFaceAdapterFacts.
Context {W : Type}.
Variable fetch : string -> string -> Async W HuggingFaceService.FetchResponse.
Variable contextText : JsValue -> string.
Variable apiKey : option string.

Lemma hf_analyzeCode_cases (code language : string) (w : W) :
  (forall error w1,
      HuggingFaceService.analyzeCode W fetch apiKey code language w
      = (Throws error, w1) ->
      String.prefix "Hugging Face analysis failed: " (message error) = true)
  /\ (forall text w1,
         HuggingFaceService.analyzeCode W fetch apiKey code language w
         = (Returns text, w1) ->
         text <> "").
Proof.
  unfold HuggingFaceService.analyzeCode.
  destruct (fetch _ _ w) as [[response|upstream] w'].
  - destruct (HuggingFaceService.ok response); cbn [negb].
    + destruct (HuggingFaceService.generated_text response) as [[text|]|upstream].
      * destruct (truthyString text) eqn:E; split; intros x w1 H;
          try discriminate H; injection H as <- _; [|discriminate].
        intros ->. discriminate E.
      * split; intros x w1 H; try discriminate H. injection H as <- _. discriminate.
      * split; intros x w1 H; try discriminate H. injection H as <- _.
        exact (prefix_append "Hugging Face analysis failed: " (message upstream)).
    + split; intros x w1 H; try discriminate H. injection H as <- _.
      exact (prefix_append "Hugging Face analysis failed: "
               ("Hugging Face API error: "
                ^^ HuggingFaceService.statusText response)).
  - split; intros x w1 H; try discriminate H. injection H as <- _.
    exact (prefix_append "Hugging Face analysis failed: " (message upstream)).
Qed.

(** X19. Every failure of the Hugging Face adapter, in [analyzeCode] as
    well as in [explainCode] and [suggestImprovements] which go through
    it, has a message that starts with "Hugging Face analysis failed: ",
    and a returned text is never empty: a missing or empty generated text
    is replaced by a placeholder and counts as a success. *)
Theorem huggingface_adapter_outcomes
        (code language analysisType : string) (context : JsValue) (w : W) :
  let hf := HuggingFaceService.construct W fetch contextText apiKey in
  (forall error w1,
      Provider.analyzeCode hf code language analysisType w = (Throws error, w1)
      \/ Provider.explainCode hf code language w = (Throws error, w1)
      \/ Provider.suggestImprovements hf code language context w
         = (Throws error, w1) ->
      String.prefix "Hugging Face analysis failed: " (message error) = true)
  /\ (forall text w1,
         Provider.analyzeCode hf code language analysisType w = (Returns text, w1)
         \/ Provider.explainCode hf code language w = (Returns text, w1)
         \/ Provider.suggestImprovements hf code language context w
            = (Returns text, w1) ->
         text <> "").
Proof.
  cbv zeta. simpl.
  unfold HuggingFaceService.explainCode, HuggingFaceService.suggestImprovements.
  split.
  - intros error w1 [H|[H|H]];
      eapply (proj1 (hf_analyzeCode_cases _ _ w)); exact H.
  - intros text w1 [H|[H|H]];
      eapply (proj2 (hf_analyzeCode_cases _ _ w)); exact H.
Qed.

End HuggingFaceAdapterFacts.

(** X18 without a key, and with a key over a service that returns no
    content. *)
Lemma groq_adapter_witness :
  Provider.analyzeCode
    (GroqService.construct Fixtures.Calls
       (Backend.chatCompletionsCreate Fixtures.healthy)
       (fun code _ _ => code) (fun code _ => code) (fun code _ _ => code) None)
    "console.log(1)" "javascript" "general" 0%nat
  = (Throws (mkError "Groq client not initialized - missing API key"), 0%nat)
  /\ exists text,
       Provider.analyzeCode
         (GroqService.construct Fixtures.Calls
            (Backend.chatCompletionsCreate Fixtures.healthy)
            (fun code _ _ => code) (fun code _ => code) (fun code _ _ => code)
            (Some "groq-key"))
         "console.log(1)" "javascript" "general" 0%nat
       = (Returns text, 1%nat) /\
       text <> "".
Proof.
  split.
  - apply (proj1 (groq_adapter_outcomes
                    (Backend.chatCompletionsCreate Fixtures.healthy)
                    (fun code _ _ => code) (fun code _ => code)
                    (fun code _ _ => code) None
                    "console.log(1)" "javascript" "general" (JString "") 0%nat)).
    reflexivity.
  - eexists. split; [reflexivity|].
    apply (proj1 (proj1 (proj2 (groq_adapter_outcomes
                    (Backend.chatCompletionsCreate Fixtures.healthy)
                    (fun code _ _ => code) (fun code _ => code)
                    (fun code _ _ => code) (Some "groq-key")
                    "console.log(1)" "javascript" "general" (JString "") 0%nat))
                  "No analysis generated" 1%nat (or_introl eq_refl))).
Defined.

(** X19 on an endpoint that answers 401 to an explain request, and on one
    that generates an empty text. *)
Lemma huggingface_adapter_witness :
  (exists error,
      Provider.explainCode
        (HuggingFaceService.construct Fixtures.Calls
           (Backend.fetch Fixtures.outage) (fun _ => "") None)
        "console.log(1)" "javascript" 0%nat
      = (Throws error, 1%nat) /\
      String.prefix "Hugging Face analysis failed: " (message error) = true)
  /\ exists text,
       Provider.analyzeCode
         (HuggingFaceService.construct Fixtures.Calls
            (Backend.fetch Fixtures.healthy) (fun _ => "") (Some "hf-key"))
         "console.log(1)" "javascript" "general" 0%nat
       = (Returns text, 1%nat) /\
       text <> "".
Proof.
  split.
  - eexists. split; [reflexivity|].
    apply (proj1 (huggingface_adapter_outcomes (Backend.fetch Fixtures.outage)
                    (fun _ => "") None
                    "console.log(1)" "javascript" "general" (JString "") 0%nat)
             _ 1%nat).
    right. left. reflexivity.
  - eexists. split; [reflexivity|].
    apply (proj2 (huggingface_adapter_outcomes (Backend.fetch Fixtures.healthy)
                    (fun _ => "") (Some "hf-key")
                    "console.log(1)" "javascript" "general" (JString "") 0%nat)
             _ 1%nat).
    left. reflexivity.
Defined.

(** ** The upload component and the language allow-list *)

Section FileUploadFacts.
Import FileUpload.

(** X20. Every file that the upload component accepts is given a language
    of the backend's allow-list, which [validateLanguage] keeps as it is;
    the language is "text" exactly for the extension ".txt". *)
Theorem accepted_files_get_a_supported_language (filename : string) :
  isCodeFile filename = true ->
  In (getLanguageFromExtension filename) Validation.supportedLanguages /\
  Validation.validateLanguage (JString (getLanguageFromExtension filename))
  = getLanguageFromExtension filename /\
  (getLanguageFromExtension filename = "text" <->
   getFileExtension filename = ".txt").
Proof.
  unfold isCodeFile, getLanguageFromExtension. intros Hcode.
  apply existsb_exists in Hcode. destruct Hcode as (ext & Hin & Heq).
  apply String.eqb_eq in Heq. rewrite Heq.
  unfold SUPPORTED_EXTENSIONS in Hin. simpl in Hin.
  repeat (destruct Hin as [<-|Hin];
          [vm_compute; repeat split; try tauto; try discriminate;
           intros; discriminate|]).
  contradiction.
Qed.

End FileUploadFacts.

(** X20 on a TypeScript source file with capitals in its name. *)
Lemma accepted_files_witness :
  FileUpload.getLanguageFromExtension "src/App.TSX" = "typescript" /\
  Validation.validateLanguage
    (JString (FileUpload.getLanguageFromExtension "src/App.TSX"))
  = "typescript".
Proof.
  destruct (accepted_files_get_a_supported_language "src/App.TSX" eq_refl)
    as (_ & Hkeep & _).
  split; [reflexivity | exact Hkeep].
Defined.

Section FileExtensionFacts.
Import FileUpload.

Lemma lastIndexOf_absent_head (a : ascii) (s : string) (c : ascii) :
  lastIndexOf (String a s) c = -1 -> Ascii.eqb a c = false.
Proof.
  simpl. destruct (lastIndexOf s c >=? 0) eqn:E.
  - apply Z.geb_le in E. lia.
  - destruct (Ascii.eqb a c); [discriminate | reflexivity].
Qed.

Lemma lowerChar_dot (a : ascii) :
  Ascii.eqb a "." = false -> Ascii.eqb (lowerChar a) "." = false.
Proof.
  destruct a as [[] [] [] [] [] [] [] []]; vm_compute; trivial.
Qed.

(** X21. A file whose name has no dot is never accepted by the upload
    component: its whole name, in lower case, is taken as its extension,
    and no supported extension lacks the leading dot. *)
Theorem files_without_a_dot_are_rejected (filename : string) :
  lastIndexOf filename "." = -1 ->
  getFileExtension filename = toLowerCase filename /\
  isCodeFile filename = false.
Proof.
  intros Hnone. unfold isCodeFile, getFileExtension. rewrite Hnone.
  split; [reflexivity|]. unfold substring. simpl dropChars.
  destruct filename as [|a rest]; [reflexivity|].
  apply lastIndexOf_absent_head, lowerChar_dot in Hnone.
  unfold SUPPORTED_EXTENSIONS. simpl. rewrite Hnone. reflexivity.
Qed.

End FileExtensionFacts.

(** X21 on a build file. *)
Lemma files_without_a_dot_witness :
  FileUpload.getFileExtension "Makefile" = "makefile" /\
  FileUpload.isCodeFile "Makefile" = false.
Proof.
  apply (files_without_a_dot_are_rejected "Makefile"). reflexivity.
Defined.
